(** * NHL MCP server: a shallow embedding of [nhl_api.py] and [server.py]

    The development follows the two Python modules of the package:

    - [nhl_api.py]: the HTTP client.  Every request goes through
      [_fetch_json]; the embedding keeps that single boundary and takes the
      upstream service, the wall clock and the JSON library as fields of a
      record [Upstream].
    - [server.py]: the text formatters, the three analytics helpers
      ([analyze_streak], [compare_teams_head_to_head], [compare_seasons])
      and the dispatcher [call_tool].

    Conventions.

    - A Python [str] is a Rocq [string]; one [ascii] stands for one
      character, so [len], slicing and [<] on strings are the ones of
      [String].
    - A Python [int] is a [Z].
    - A JSON object read with [d.get(k, default)] is a record whose fields
      are options: [None] is the absent key and the default is substituted
      where the code substitutes it.  The field types are the ones declared
      by the pydantic models of [nhl_api.py].
    - Code under [try: ... except Exception as e] lives in the error monad
      [result]; an exception is recorded by its [str(e)].
    - [async]/[await] is sequential here: a helper awaits one response at a
      time, so an awaited call is an ordinary call. *)

From Stdlib Require Import ZArith List String Ascii Bool Lia.
From Stdlib Require Import Decimal DecimalString Sorting Permutation.
Import ListNotations.

Open Scope string_scope.
Open Scope Z_scope.

(** ** Python values *)

(** [str(n)] for an [int]. *)
Definition str_int (z : Z) : string := NilZero.string_of_int (Z.to_int z).

(** The line feed written ["\n"] in the source. *)
Definition nl : string := String (ascii_of_nat 10) EmptyString.

(** [sep.join(parts)]. *)
Definition join (sep : string) (parts : list string) : string :=
  String.concat sep parts.

(** [c * n] for a one character string [c]. *)
Fixpoint repeat_str (c : string) (n : nat) : string :=
  match n with
  | O => ""
  | S k => c ++ repeat_str c k
  end.

(** [s.ljust(w)] and [s.rjust(w)]: pad with blanks up to width [w]. *)
Definition ljust (w : nat) (s : string) : string :=
  s ++ repeat_str " " (w - String.length s).

Definition rjust (w : nat) (s : string) : string :=
  repeat_str " " (w - String.length s) ++ s.

(** [s[i:j]] for [0 <= i <= j]; a slice never fails, it is cut at the end
    of [s]. *)
Definition slice (i j : nat) (s : string) : string :=
  substring i (j - i) s.

(** [d.get(k, default)] on an optional field. *)
Definition get {A : Type} (field : option A) (default : A) : A :=
  match field with
  | Some v => v
  | None => default
  end.

(** [x or y] on an optional string: [None] and [""] are falsy. *)
Definition str_or (x : option string) (y : string) : string :=
  match x with
  | Some s => if String.eqb s "" then y else s
  | None => y
  end.

(** [not x] on an optional string. *)
Definition falsy (x : option string) : bool :=
  match x with
  | Some s => String.eqb s ""
  | None => true
  end.

(** [a == b] where [a] comes from [d.get(k)] and [b] is a string:
    [None == b] is [False]. *)
Definition opt_eqb (a : option string) (b : string) : bool :=
  match a with
  | Some s => String.eqb s b
  | None => false
  end.

(** [l.append(x)]. *)
Definition append {A : Type} (l : list A) (x : A) : list A :=
  (l ++ [x])%list.

(** ** Exceptions *)

(** An exception caught by [except Exception as e], kept as [str(e)]. *)
Inductive exn : Type :=
| Exception (msg : string).

Definition str_exn (e : exn) : string :=
  match e with Exception msg => msg end.

Inductive result (A : Type) : Type :=
| Ok (a : A)
| Raise (e : exn).

Arguments Ok {A} a.
Arguments Raise {A} e.

Definition bind {A B : Type} (m : result A) (k : A -> result B) : result B :=
  match m with
  | Ok a => k a
  | Raise e => Raise e
  end.

Notation "x <- m ;; k" := (bind m (fun x => k))
  (at level 61, m at next level, right associativity).

(** [try: body except Exception as e: return handler(e)]. *)
Definition try_except {A : Type} (body : result A) (handler : exn -> A) : A :=
  match body with
  | Ok a => a
  | Raise e => handler e
  end.

(** [d[k]]: a missing key raises [KeyError(k)], whose [str] is the quoted
    key. *)
Definition item {A : Type} (k : string) (field : option A) : result A :=
  match field with
  | Some v => Ok v
  | None => Raise (Exception ("'" ++ k ++ "'"))
  end.

(** ** Floating point division and [:.2f]

    [a / b] on two [int]s is the binary64 number nearest to the exact
    quotient (ties to even), and [f"{x:.2f}"] is the decimal with two
    fractional digits nearest to the exact value of [x] (ties to even).
    Both are written out on integers: a finite float is a sign, a
    significand [mant] and an exponent [expo], of value [mant * 2^expo]. *)

Record float64 : Type := mkFloat {
  neg : bool;
  mant : Z;
  expo : Z
}.

(** The integer nearest to [p / q], ties to even ([0 <= p], [0 < q]). *)
Definition rne (p q : Z) : Z :=
  let f := p / q in
  let r := p mod q in
  if 2 * r <? q then f
  else if q <? 2 * r then f + 1
  else if Z.even f then f else f + 1.

(** The integer nearest to [p * 2^e / q]. *)
Definition scale_rne (p q e : Z) : Z :=
  if 0 <=? e then rne (p * 2 ^ e) q else rne p (q * 2 ^ (- e)).

(** [2^n <= p / q]. *)
Definition ratio_ge_pow2 (p q n : Z) : bool :=
  if 0 <=? n then q * 2 ^ n <=? p else q <=? p * 2 ^ (- n).

(** The exponent of the binary64 nearest to [p / q] ([0 < p], [0 < q]):
    53 significant bits, and not below the subnormal exponent. *)
Definition f64_exponent (p q : Z) : Z :=
  let d := Z.log2 p - Z.log2 q in
  let fl := if ratio_ge_pow2 p q d then d else d - 1 in
  Z.max (fl - 52) (- 1074).

(** [a / b] on [int]s. *)
Definition true_div (a b : Z) : result float64 :=
  if b =? 0 then Raise (Exception "division by zero")
  else
    let sign := xorb (a <? 0) (b <? 0) in
    let p := Z.abs a in
    let q := Z.abs b in
    if p =? 0 then Ok (mkFloat sign 0 0)
    else
      let e := f64_exponent p q in
      let m := scale_rne p q (- e) in
      if (971 <? e) || ((e =? 971) && (m =? 2 ^ 53))
      then Raise (Exception "integer division result too large for a float")
      else Ok (mkFloat sign m e).

(** The number of hundredths nearest to the magnitude of [x]. *)
Definition hundredths (x : float64) : Z :=
  scale_rne (100 * mant x) 1 (expo x).

Definition two_digits (d : Z) : string :=
  (if d <? 10 then "0" else "") ++ str_int d.

(** A count of hundredths written with two fractional digits. *)
Definition show_hundredths (h : Z) : string :=
  str_int (h / 100) ++ "." ++ two_digits (h mod 100).

(** [f"{x:.2f}"] for a float [x]. *)
Definition format_2f (x : float64) : string :=
  (if neg x then "-" else "") ++ show_hundredths (hundredths x).

(** [f"{n:.2f}"] for an [int] [n]. *)
Definition format_2f_int (n : Z) : string :=
  (if n <? 0 then "-" else "") ++ show_hundredths (100 * Z.abs n).

(** ** Data model ([nhl_api.py], the pydantic models) *)

(** [TeamInfo]: the keys of a game's ["homeTeam"] and ["awayTeam"] that
    the server reads. *)
Record TeamInfo : Type := mkTeamInfo {
  abbrev : option string;
  score : option Z
}.

(** [GameScore]: a game of a schedule or of a score board. *)
Record Game : Type := mkGame {
  id : option Z;
  gameDate : option string;
  venue : option string;
  gameState : option string;
  period : option Z;
  homeTeam : option TeamInfo;
  awayTeam : option TeamInfo
}.

(** [TeamStandings]: a standings record; [teamAbbrev] is the ["default"]
    entry of the ["teamAbbrev"] object. *)
Record TeamStandings : Type := mkTeamStandings {
  teamAbbrev : option string;
  gamesPlayed : option Z;
  wins : option Z;
  losses : option Z;
  otLosses : option Z;
  points : option Z;
  goalFor : option Z;
  goalAgainst : option Z;
  goalDifferential : option Z;
  divisionAbbrev : option string;
  conferenceAbbrev : option string
}.

(** [game.get(side, {}).get("abbrev")] and [.get("score", 0)]. *)
Definition side_abbrev (side : option TeamInfo) : option string :=
  match side with
  | Some t => abbrev t
  | None => None
  end.

Definition side_score (side : option TeamInfo) : Z :=
  match side with
  | Some t => get (score t) 0
  | None => 0
  end.

(** [game.get("gameState") in ("OFF", "FINAL")]. *)
Definition is_completed (state : option string) : bool :=
  opt_eqb state "OFF" || opt_eqb state "FINAL".

(** The arguments of a tool call, one optional entry per key of the
    [inputSchema]s of [TOOLS]. *)
Record Arguments : Type := mkArguments {
  arg_date : option string;
  arg_gameId : option Z;
  arg_division : option string;
  arg_conference : option string;
  arg_teamAbbrev : option string;
  arg_season : option string;
  arg_category : option string;
  arg_limit : option Z;
  arg_team1 : option string;
  arg_team2 : option string;
  arg_seasons : option (list string)
}.

(** [TextContent(type="text", text=...)]. *)
Record TextContent : Type := mkTextContent {
  type : string;
  text : string
}.

Definition text_content (s : string) : list TextContent :=
  [mkTextContent "text" s].

Section Model.

(** A parsed JSON document and the numeric ["value"] of a leader board
    entry (an [int] or a [float]) are kept abstract. *)
Variables json stat : Type.

(** [PlayerStats] and [GoalieStats]: a leader board entry; the names are
    the ["default"] entries of ["firstName"] and ["lastName"]. *)
Record PlayerStats : Type := mkPlayerStats {
  firstName : option string;
  lastName : option string;
  player_teamAbbrev : option string;
  position : option string;
  value : option stat
}.

(** What the program takes from outside: the clock, the upstream service
    behind [_fetch_json], the reading of a parsed document by key, and the
    library functions whose result depends on Unicode tables or on
    floating point printing. *)
Record Upstream : Type := mkUpstream {
  (* datetime.now().year, .month, .date().isoformat() *)
  now_year : Z;
  now_month : Z;
  today_iso : string;
  (* response.raise_for_status(); response.json() after client.get(url) *)
  _fetch_json : string -> result json;
  (* data.get("games"), data.get("standings"), data.get(category) *)
  games_of : json -> option (list Game);
  standings_of : json -> option (list TeamStandings);
  leaders_of : json -> string -> option (list PlayerStats);
  (* json.dumps(data, indent=2) *)
  json_dumps : json -> string;
  (* str.upper, str.lower *)
  upper : string -> string;
  lower : string -> string;
  (* str(value) and f"{value:.3f}" on a number *)
  stat_str : stat -> string;
  stat_3f : stat -> string
}.

Variable up : Upstream.

(** ** [NHLAPIClient] ([nhl_api.py]) *)

Definition NHL_API_BASE : string := "https://api-web.nhle.com/v1".

Definition _get_current_season : string :=
  let year := now_year up in
  let month := now_month up in
  if 10 <=? month
  then str_int year ++ str_int (year + 1)
  else str_int (year - 1) ++ str_int year.

Definition format_season (season : string) : string :=
  if Nat.eqb (String.length season) 8
  then
    let start_year := slice 0 4 season in
    let end_year := slice 4 8 season in
    start_year ++ "-" ++ end_year
  else season.

Definition get_todays_scores (date : option string) : result (list Game) :=
  let date_str := str_or date (today_iso up) in
  data <- _fetch_json up (NHL_API_BASE ++ "/score/" ++ date_str) ;;
  Ok (get (games_of up data) []).

Definition get_game_details (game_id : Z) : result json :=
  _fetch_json up
    (NHL_API_BASE ++ "/gamecenter/" ++ str_int game_id ++ "/play-by-play").

Definition get_standings (date : option string) : result json :=
  let date_str := str_or date (today_iso up) in
  _fetch_json up (NHL_API_BASE ++ "/standings/" ++ date_str).

Definition get_standings_by_season (season : string) : result json :=
  _fetch_json up (NHL_API_BASE ++ "/standings/" ++ season).

Definition get_team_schedule (team_abbrev : string) (season : option string)
  : result json :=
  let season_str := str_or season _get_current_season in
  _fetch_json up
    (NHL_API_BASE ++ "/club-schedule-season/" ++ team_abbrev ++ "/"
       ++ season_str).

Definition get_schedule (date : option string) : result json :=
  let date_str := str_or date (today_iso up) in
  _fetch_json up (NHL_API_BASE ++ "/schedule/" ++ date_str).

Definition get_top_skaters (category : string) (limit : Z)
    (season : option string) : result (list PlayerStats) :=
  let season_str := str_or season _get_current_season in
  if falsy season then
    data <- _fetch_json up
      (NHL_API_BASE ++ "/skater-stats-leaders/current?categories="
         ++ category ++ "&limit=" ++ str_int limit) ;;
    Ok (get (leaders_of up data category) [])
  else
    data <- _fetch_json up
      (NHL_API_BASE ++ "/skater-stats-leaders/" ++ season_str
         ++ "/2?categories=" ++ category ++ "&limit=" ++ str_int limit) ;;
    Ok (get (leaders_of up data category) []).

Definition get_top_goalies (limit : Z) (season : option string)
  : result (list PlayerStats) :=
  let season_str := str_or season _get_current_season in
  let category := "savePctg" in
  if falsy season then
    data <- _fetch_json up
      (NHL_API_BASE ++ "/goalie-stats-leaders/current?categories="
         ++ category ++ "&limit=" ++ str_int limit) ;;
    Ok (get (leaders_of up data category) [])
  else
    data <- _fetch_json up
      (NHL_API_BASE ++ "/goalie-stats-leaders/" ++ season_str
         ++ "/2?categories=" ++ category ++ "&limit=" ++ str_int limit) ;;
    Ok (get (leaders_of up data category) []).

Definition get_playoff_bracket (season : option string) : result json :=
  let year := str_or season (str_int (now_year up)) in
  _fetch_json up (NHL_API_BASE ++ "/playoff-bracket/" ++ year).

Definition get_team_stats (team_abbrev : string) (season : option string)
  : result json :=
  let season_str := str_or season _get_current_season in
  _fetch_json up
    (NHL_API_BASE ++ "/club-stats/" ++ team_abbrev ++ "/" ++ season_str
       ++ "/2").

(** ** Formatters ([server.py]) *)

Definition format_game_score (game : Game) : string :=
  let game_state := get (gameState game) "" in
  let period := get (period game) 0 in
  let status :=
    if String.eqb game_state "LIVE" || String.eqb game_state "CRIT"
    then "LIVE - Period " ++ str_int period
    else if String.eqb game_state "FUT" then "Scheduled"
    else if String.eqb game_state "FINAL" || String.eqb game_state "OFF"
    then "Final"
    else game_state in
  let away_team := awayTeam game in
  let home_team := homeTeam game in
  get (side_abbrev away_team) "" ++ " " ++ str_int (side_score away_team)
    ++ " @ "
    ++ get (side_abbrev home_team) "" ++ " " ++ str_int (side_score home_team)
    ++ " - " ++ status ++ nl
    ++ "Venue: " ++ get (venue game) "" ++ nl
    ++ "Date: " ++ get (gameDate game) "" ++ nl
    ++ "Game ID: " ++ match id game with Some i => str_int i | None => "" end.

Definition standings_row (team : TeamStandings) : string :=
  let team_name := ljust 4 (get (teamAbbrev team) "") in
  let gp := rjust 3 (str_int (get (gamesPlayed team) 0)) in
  let w := rjust 2 (str_int (get (wins team) 0)) in
  let l := rjust 2 (str_int (get (losses team) 0)) in
  let ot := rjust 2 (str_int (get (otLosses team) 0)) in
  let pts := rjust 3 (str_int (get (points team) 0)) in
  let gf := rjust 3 (str_int (get (goalFor team) 0)) in
  let ga := rjust 3 (str_int (get (goalAgainst team) 0)) in
  let diff := rjust 4 (str_int (get (goalDifferential team) 0)) in
  let div := get (divisionAbbrev team) "" in
  team_name ++ " | " ++ gp ++ " | " ++ w ++ " | " ++ l ++ " | " ++ ot
    ++ " | " ++ pts ++ " | " ++ gf ++ " | " ++ ga ++ " | " ++ diff ++ " | "
    ++ div ++ nl.

Definition format_standings (standings : list TeamStandings) : string :=
  let result := "Team | GP | W | L | OT | PTS | GF | GA | DIFF | Div" ++ nl in
  let result := result ++ repeat_str "-" 70 ++ nl in
  fold_left (fun result team => result ++ standings_row team)
    standings result.

(** [str(player.get("value", 0))]. *)
Definition value_str (v : option stat) : string :=
  match v with
  | Some x => stat_str up x
  | None => "0"
  end.

(** [f"{goalie.get('value', 0):.3f}"]. *)
Definition value_3f (v : option stat) : string :=
  match v with
  | Some x => stat_3f up x
  | None => "0.000"
  end.

Definition player_row (index : Z) (player : PlayerStats) : string :=
  let first_name := get (firstName player) "" in
  let last_name := get (lastName player) "" in
  let name := first_name ++ " " ++ last_name in
  let display_name := ljust 25 (slice 0 25 name) in
  let team := ljust 4 (get (player_teamAbbrev player) "") in
  let pos := ljust 2 (get (position player) "") in
  let value := rjust 4 (value_str (value player)) in
  let rank := rjust 3 (str_int (index + 1)) in
  rank ++ " | " ++ display_name ++ " | " ++ team ++ " | " ++ pos ++ " | "
    ++ value ++ nl.

(** The body of [for index, x in enumerate(xs): result += row(index, x)]. *)
Fixpoint enumerate_rows {A : Type} (row : Z -> A -> string) (index : Z)
    (xs : list A) (result : string) : string :=
  match xs with
  | [] => result
  | x :: rest => enumerate_rows row (index + 1) rest (result ++ row index x)
  end.

Definition format_player_stats (players : list PlayerStats)
    (category : string) : string :=
  let result := "Rank | Player | Team | Pos | " ++ upper up category ++ nl in
  let result := result ++ repeat_str "-" 60 ++ nl in
  enumerate_rows player_row 0 players result.

Definition goalie_row (category : string) (index : Z) (goalie : PlayerStats)
  : string :=
  let first_name := get (firstName goalie) "" in
  let last_name := get (lastName goalie) "" in
  let name := first_name ++ " " ++ last_name in
  let display_name := ljust 25 (slice 0 25 name) in
  let team := ljust 4 (get (player_teamAbbrev goalie) "") in
  let value_str :=
    if String.eqb category "savePctg"
    then value_3f (value goalie)
    else value_str (value goalie) in
  let rank := rjust 3 (str_int (index + 1)) in
  rank ++ " | " ++ display_name ++ " | " ++ team ++ " | " ++ value_str ++ nl.

Definition format_goalie_stats (goalies : list PlayerStats)
    (category : string) : string :=
  let result := "Rank | Goalie | Team | " ++ upper up category ++ nl in
  let result := result ++ repeat_str "-" 60 ++ nl in
  enumerate_rows (goalie_row category) 0 goalies result.

(** ** Streak analysis ([analyze_streak]) *)

(** [completed_games.sort(key=lambda x: x.get("gameDate", ""),
    reverse=True)]: the stable sort by decreasing key, games of equal key
    staying in their order. *)
Definition date_key (g : Game) : string := get (gameDate g) "".

Fixpoint insert_desc (g : Game) (sorted : list Game) : list Game :=
  match sorted with
  | [] => [g]
  | h :: t =>
      if String.leb (date_key h) (date_key g)
      then g :: h :: t
      else h :: insert_desc g t
  end.

Definition sort_desc (games : list Game) : list Game :=
  fold_right insert_desc [] games.

Definition completed_games (games : list Game) : list Game :=
  sort_desc (filter (fun g => is_completed (gameState g)) games).

(** The variables the loop of [analyze_streak] updates. *)
Record Streak : Type := mkStreak {
  streak_count : Z;
  streak_type : string;
  recent_results : list string
}.

(** The locals [team_score], [opp_score] and [opp_team] of the loop body,
    for [team_abbrev] in [game]. *)
Definition team_score (team_abbrev : string) (game : Game) : Z :=
  let is_home := opt_eqb (side_abbrev (homeTeam game)) team_abbrev in
  if is_home then side_score (homeTeam game)
  else side_score (awayTeam game).

Definition opp_score (team_abbrev : string) (game : Game) : Z :=
  let is_home := opt_eqb (side_abbrev (homeTeam game)) team_abbrev in
  if is_home then side_score (awayTeam game)
  else side_score (homeTeam game).

Definition opp_team (team_abbrev : string) (game : Game) : string :=
  let is_home := opt_eqb (side_abbrev (homeTeam game)) team_abbrev in
  if is_home then get (side_abbrev (awayTeam game)) ""
  else get (side_abbrev (homeTeam game)) "".

(** [won = team_score > opp_score]. *)
Definition won (team_abbrev : string) (game : Game) : bool :=
  opp_score team_abbrev game <? team_score team_abbrev game.

(** The line appended to [recent_results]. *)
Definition result_line (team_abbrev : string) (game : Game) : string :=
  let result := if won team_abbrev game then "W" else "L" in
  result ++ " " ++ str_int (team_score team_abbrev game) ++ "-"
    ++ str_int (opp_score team_abbrev game) ++ " vs "
    ++ opp_team team_abbrev game.

(** The [for game in completed_games] loop with its two [break]s. *)
Fixpoint streak_loop (team_abbrev : string) (games : list Game) (st : Streak)
  : Streak :=
  match games with
  | [] => st
  | game :: rest =>
      let result := if won team_abbrev game then "W" else "L" in
      let recent := append (recent_results st) (result_line team_abbrev game) in
      if streak_count st =? 0 then
        let st' := mkStreak 1 result recent in
        if 10 <=? Z.of_nat (List.length recent) then st'
        else streak_loop team_abbrev rest st'
      else if String.eqb result (streak_type st) then
        let st' := mkStreak (streak_count st + 1) (streak_type st) recent in
        if 10 <=? Z.of_nat (List.length recent) then st'
        else streak_loop team_abbrev rest st'
      else mkStreak (streak_count st) (streak_type st) recent
  end.

Definition streak_text (st : Streak) : string :=
  if String.eqb (streak_type st) "W"
  then str_int (streak_count st) ++ " game winning streak"
  else str_int (streak_count st) ++ " game losing streak".

(** The report once the completed games are known. *)
Definition streak_report (team_abbrev : string) (completed : list Game)
  : string :=
  let st := streak_loop team_abbrev completed (mkStreak 0 "" []) in
  team_abbrev ++ " Current Streak: " ++ streak_text st ++ nl ++ nl
    ++ "Last 10 games:" ++ nl ++ join nl (recent_results st).

Definition analyze_streak (team_abbrev : string) : string :=
  try_except
    (schedule <- get_team_schedule team_abbrev None ;;
     let games := get (games_of up schedule) [] in
     match games with
     | [] => Ok ("No games found for " ++ team_abbrev)
     | _ :: _ =>
         let completed_games := completed_games games in
         match completed_games with
         | [] =>
             Ok ("No completed games found for " ++ team_abbrev
                   ++ " this season")
         | _ :: _ => Ok (streak_report team_abbrev completed_games)
         end
     end)
    (fun e => "Error analyzing streak: " ++ str_exn e).

(** ** Head-to-head comparison ([compare_teams_head_to_head]) *)

(** The condition of the list comprehension that selects the matchups. *)
Definition is_matchup (team1 team2 : string) (game : Game) : bool :=
  (opt_eqb (side_abbrev (homeTeam game)) team1
   && opt_eqb (side_abbrev (awayTeam game)) team2)
  || (opt_eqb (side_abbrev (homeTeam game)) team2
      && opt_eqb (side_abbrev (awayTeam game)) team1).

Definition team1_score (team1 : string) (game : Game) : Z :=
  let is_team1_home := opt_eqb (side_abbrev (homeTeam game)) team1 in
  if is_team1_home then side_score (homeTeam game)
  else side_score (awayTeam game).

Definition team2_score (team1 : string) (game : Game) : Z :=
  let is_team1_home := opt_eqb (side_abbrev (homeTeam game)) team1 in
  if is_team1_home then side_score (awayTeam game)
  else side_score (homeTeam game).

(** The variables the loop of [compare_teams_head_to_head] updates. *)
Record Series : Type := mkSeries {
  team1_wins : Z;
  team2_wins : Z;
  results : list string
}.

(** One turn of [for game in matchups]. *)
Definition series_step (team1 team2 : string) (st : Series) (game : Game)
  : Series :=
  let team1_score := team1_score team1 game in
  let team2_score := team2_score team1 game in
  let game_state := get (gameState game) "" in
  let scores :=
    get (gameDate game) "" ++ ": " ++ team1 ++ " " ++ str_int team1_score
      ++ ", " ++ team2 ++ " " ++ str_int team2_score in
  if String.eqb game_state "OFF" || String.eqb game_state "FINAL" then
    if team2_score <? team1_score then
      mkSeries (team1_wins st + 1) (team2_wins st)
        (append (results st) (scores ++ " - " ++ team1 ++ " WIN"))
    else
      mkSeries (team1_wins st) (team2_wins st + 1)
        (append (results st) (scores ++ " - " ++ team2 ++ " WIN"))
  else if String.eqb game_state "FUT" then
    mkSeries (team1_wins st) (team2_wins st)
      (append (results st) (get (gameDate game) "" ++ ": Upcoming game"))
  else
    mkSeries (team1_wins st) (team2_wins st)
      (append (results st) (scores ++ " - IN PROGRESS")).

Definition series_loop (team1 team2 : string) (matchups : list Game)
  : Series :=
  fold_left (series_step team1 team2) matchups (mkSeries 0 0 []).

(** The report once the matchups are known. *)
Definition series_report (team1 team2 : string) (matchups : list Game)
  : string :=
  let st := series_loop team1 team2 matchups in
  "Head-to-Head: " ++ team1 ++ " vs " ++ team2 ++ nl ++ nl
    ++ "Season Series: " ++ team1 ++ " " ++ str_int (team1_wins st) ++ "-"
    ++ str_int (team2_wins st) ++ " " ++ team2 ++ nl ++ nl
    ++ "Games:" ++ nl ++ join nl (results st).

Definition compare_teams_head_to_head (team1 team2 : string)
    (season : option string) : string :=
  try_except
    (schedule1 <- get_team_schedule team1 season ;;
     let games := get (games_of up schedule1) [] in
     match games with
     | [] => Ok ("No schedule data found for " ++ team1)
     | _ :: _ =>
         let matchups := filter (is_matchup team1 team2) games in
         match matchups with
         | [] =>
             Ok ("No matchups found between " ++ team1 ++ " and " ++ team2
                   ++ " this season")
         | _ :: _ => Ok (series_report team1 team2 matchups)
         end
     end)
    (fun e => "Error comparing teams: " ++ str_exn e).

(** ** Season comparison ([compare_seasons]) *)

(** [sum(t.get(key, 0) for t in teams)]. *)
Definition sum_field (field : TeamStandings -> option Z)
    (teams : list TeamStandings) : Z :=
  fold_left (fun acc t => acc + get (field t) 0) teams 0.

(** [f"{avg_goals:.2f}"] where
    [avg_goals = total_goals / total_games if total_games > 0 else 0]. *)
Definition avg_goals_2f (total_goals total_games : Z) : result string :=
  if 0 <? total_games then
    avg_goals <- true_div total_goals total_games ;;
    Ok (format_2f avg_goals)
  else Ok (format_2f_int 0).

(** The block appended for one season in league-wide mode. *)
Definition league_block (season : string) (teams : list TeamStandings)
  : result string :=
  let total_goals := sum_field goalFor teams in
  let total_games := sum_field gamesPlayed teams in
  avg <- avg_goals_2f total_goals total_games ;;
  Ok ("Season " ++ format_season season ++ ":" ++ nl
        ++ "  Total teams: " ++ str_int (Z.of_nat (List.length teams)) ++ nl
        ++ "  Total goals: " ++ str_int total_goals ++ nl
        ++ "  Avg goals/game: " ++ avg).

(** [next((t for t in teams if t.get("teamAbbrev", {}).get("default")
    == team_abbrev), None)]. *)
Definition find_team (team_abbrev : string) (teams : list TeamStandings)
  : option TeamStandings :=
  find (fun t => opt_eqb (teamAbbrev t) team_abbrev) teams.

(** The block appended for one season in per-team mode. *)
Definition team_block (team_abbrev season : string)
    (teams : list TeamStandings) : string :=
  match find_team team_abbrev teams with
  | Some team =>
      format_season season ++ " - " ++ team_abbrev ++ ":" ++ nl
        ++ "  Record: " ++ str_int (get (wins team) 0) ++ "-"
        ++ str_int (get (losses team) 0) ++ "-"
        ++ str_int (get (otLosses team) 0) ++ nl
        ++ "  Points: " ++ str_int (get (points team) 0) ++ nl
        ++ "  Goals For: " ++ str_int (get (goalFor team) 0) ++ nl
        ++ "  Goals Against: " ++ str_int (get (goalAgainst team) 0) ++ nl
        ++ "  Goal Diff: " ++ str_int (get (goalDifferential team) 0)
  | None =>
      format_season season ++ " - " ++ team_abbrev ++ ": No data found"
  end.

(** [for season in seasons: ... results.append(block)], one fetch per
    turn; a failed fetch leaves the loop with the exception. *)
Fixpoint seasons_loop (block : string -> list TeamStandings -> result string)
    (seasons : list string) (results : list string) : result (list string) :=
  match seasons with
  | [] => Ok results
  | season :: rest =>
      standings_data <- get_standings_by_season season ;;
      let teams := get (standings_of up standings_data) [] in
      b <- block season teams ;;
      seasons_loop block rest (append results b)
  end.

Definition compare_seasons (seasons : list string)
    (team_abbrev : option string) : string :=
  try_except
    (if falsy team_abbrev then
       results <- seasons_loop league_block seasons [] ;;
       Ok ("Season Comparison:" ++ nl ++ nl ++ join (nl ++ nl) results)
     else
       let team_abbrev := get team_abbrev "" in
       results <-
         seasons_loop (fun season teams =>
                         Ok (team_block team_abbrev season teams))
           seasons [] ;;
       Ok ("Season Comparison for " ++ team_abbrev ++ ":" ++ nl ++ nl
             ++ join (nl ++ nl) results))
    (fun e => "Error comparing seasons: " ++ str_exn e).

(** ** The dispatcher ([call_tool]) *)

(** The body of the [try] of [call_tool]. *)
Definition call_tool_body (name : string) (arguments : Arguments)
  : result (list TextContent) :=
  if String.eqb name "get_live_games" then
    games <- get_todays_scores (arg_date arguments) ;;
    match games with
    | [] => Ok (text_content "No games scheduled for this date")
    | _ :: _ =>
        let formatted := join (nl ++ nl) (map format_game_score games) in
        Ok (text_content formatted)
    end
  else if String.eqb name "get_game_details" then
    gameId <- item "gameId" (arg_gameId arguments) ;;
    details <- get_game_details gameId ;;
    Ok (text_content (json_dumps up details))
  else if String.eqb name "get_standings" then
    standings_data <- get_standings (arg_date arguments) ;;
    let filtered := get (standings_of up standings_data) [] in
    let filtered :=
      match arg_division arguments with
      | Some d =>
          let division := lower up d in
          filter (fun t =>
                    String.eqb (lower up (get (divisionAbbrev t) ""))
                      division)
            filtered
      | None => filtered
      end in
    let filtered :=
      match arg_conference arguments with
      | Some c =>
          let conference := lower up c in
          filter (fun t =>
                    String.eqb (lower up (get (conferenceAbbrev t) ""))
                      conference)
            filtered
      | None => filtered
      end in
    let formatted := format_standings filtered in
    Ok (text_content formatted)
  else if String.eqb name "get_team_stats" then
    teamAbbrev <- item "teamAbbrev" (arg_teamAbbrev arguments) ;;
    stats <- get_team_stats teamAbbrev (arg_season arguments) ;;
    Ok (text_content (json_dumps up stats))
  else if String.eqb name "get_player_stats" then
    let category := get (arg_category arguments) "points" in
    players <- get_top_skaters category (get (arg_limit arguments) 20)
                 (arg_season arguments) ;;
    let formatted := format_player_stats players category in
    Ok (text_content formatted)
  else if String.eqb name "get_goalie_stats" then
    goalies <- get_top_goalies (get (arg_limit arguments) 20)
                 (arg_season arguments) ;;
    let formatted := format_goalie_stats goalies "savePctg" in
    Ok (text_content formatted)
  else if String.eqb name "get_schedule" then
    schedule <-
      match arg_teamAbbrev arguments with
      | Some teamAbbrev =>
          get_team_schedule teamAbbrev (arg_season arguments)
      | None => get_schedule (arg_date arguments)
      end ;;
    Ok (text_content (json_dumps up schedule))
  else if String.eqb name "get_playoff_bracket" then
    bracket <- get_playoff_bracket (arg_season arguments) ;;
    Ok (text_content (json_dumps up bracket))
  else if String.eqb name "compare_teams" then
    team1 <- item "team1" (arg_team1 arguments) ;;
    team2 <- item "team2" (arg_team2 arguments) ;;
    let comparison :=
      compare_teams_head_to_head team1 team2 (arg_season arguments) in
    Ok (text_content comparison)
  else if String.eqb name "get_team_streak" then
    teamAbbrev <- item "teamAbbrev" (arg_teamAbbrev arguments) ;;
    let streak := analyze_streak teamAbbrev in
    Ok (text_content streak)
  else if String.eqb name "compare_seasons" then
    seasons <- item "seasons" (arg_seasons arguments) ;;
    let comparison := compare_seasons seasons (arg_teamAbbrev arguments) in
    Ok (text_content comparison)
  else Ok (text_content ("Unknown tool: " ++ name)).

Definition call_tool (name : string) (arguments : Arguments)
  : list TextContent :=
  try_except (call_tool_body name arguments)
    (fun e => text_content ("Error executing " ++ name ++ ": " ++ str_exn e)).

End Model.

Arguments mkPlayerStats {stat}.
Arguments firstName {stat}.
Arguments lastName {stat}.
Arguments player_teamAbbrev {stat}.
Arguments position {stat}.
Arguments value {stat}.
Arguments now_year {json stat}.
Arguments now_month {json stat}.
Arguments today_iso {json stat}.
Arguments _fetch_json {json stat}.
Arguments games_of {json stat}.
Arguments standings_of {json stat}.
Arguments leaders_of {json stat}.
Arguments json_dumps {json stat}.
Arguments upper {json stat}.
Arguments lower {json stat}.
Arguments stat_str {json stat}.
Arguments stat_3f {json stat}.
Arguments _get_current_season {json stat}.
Arguments get_todays_scores {json stat}.
Arguments get_game_details {json stat}.
Arguments get_standings {json stat}.
Arguments get_standings_by_season {json stat}.
Arguments get_team_schedule {json stat}.
Arguments get_schedule {json stat}.
Arguments get_top_skaters {json stat}.
Arguments get_top_goalies {json stat}.
Arguments get_playoff_bracket {json stat}.
Arguments get_team_stats {json stat}.
Arguments value_str {json stat}.
Arguments value_3f {json stat}.
Arguments player_row {json stat}.
Arguments goalie_row {json stat}.
Arguments format_player_stats {json stat}.
Arguments format_goalie_stats {json stat}.
Arguments analyze_streak {json stat}.
Arguments compare_teams_head_to_head {json stat}.
Arguments seasons_loop {json stat}.
Arguments compare_seasons {json stat}.
Arguments call_tool_body {json stat}.
Arguments call_tool {json stat}.

(** ** Words of the specification

    The notions the properties below are stated with. *)

(** [a] is dated no earlier than [b]. *)
Definition date_ge (a b : Game) : Prop :=
  String.leb (date_key b) (date_key a) = true.

(** The letter the streak loop records for a result. *)
Definition letter (w : bool) : string := if w then "W" else "L".

(** The number of leading entries of [ws] equal to [b]. *)
Fixpoint run_length (b : bool) (ws : list bool) : nat :=
  match ws with
  | [] => O
  | w :: rest => if Bool.eqb w b then S (run_length b rest) else O
  end.

(** The length of the longest prefix of [games] whose games all have the
    result of the first one. *)
Definition streak_length (team_abbrev : string) (games : list Game) : nat :=
  match games with
  | [] => O
  | g :: rest =>
      S (run_length (won team_abbrev g) (map (won team_abbrev) rest))
  end.

(** The line of the head-to-head report for one matchup. *)
Definition matchup_line (team1 team2 : string) (game : Game) : string :=
  let scores :=
    get (gameDate game) "" ++ ": " ++ team1 ++ " "
      ++ str_int (team1_score team1 game) ++ ", " ++ team2 ++ " "
      ++ str_int (team2_score team1 game) in
  if is_completed (gameState game) then
    if team2_score team1 game <? team1_score team1 game
    then scores ++ " - " ++ team1 ++ " WIN"
    else scores ++ " - " ++ team2 ++ " WIN"
  else if opt_eqb (gameState game) "FUT"
  then get (gameDate game) "" ++ ": Upcoming game"
  else scores ++ " - IN PROGRESS".

(** A completed matchup won by [team1], and one won by its opponent. *)
Definition team1_won (team1 : string) (game : Game) : bool :=
  is_completed (gameState game)
  && (team2_score team1 game <? team1_score team1 game).

Definition team2_won (team1 : string) (game : Game) : bool :=
  is_completed (gameState game)
  && negb (team2_score team1 game <? team1_score team1 game).

(** The number of games of [games] that satisfy [p]. *)
Definition count (p : Game -> bool) (games : list Game) : Z :=
  Z.of_nat (List.length (filter p games)).

(** [h] hundredths is the quotient [a / b] rounded to two decimals: no
    other count of hundredths is nearer to it. *)
Definition nearest_hundredth (h a b : Z) : Prop :=
  2 * Z.abs (h * b - 100 * a) <= b.

(** The sum of a counter over the teams of a season. *)
Definition total (field : TeamStandings -> option Z)
    (teams : list TeamStandings) : Z :=
  fold_right (fun t acc => get (field t) 0 + acc) 0 teams.

(** The block of the league-wide season report for [teams] teams, [goals]
    goals and an average of [h] hundredths of a goal per game. *)
Definition league_record (season : string) (teams goals h : Z) : string :=
  "Season " ++ format_season season ++ ":" ++ nl
    ++ "  Total teams: " ++ str_int teams ++ nl
    ++ "  Total goals: " ++ str_int goals ++ nl
    ++ "  Avg goals/game: " ++ show_hundredths h.

(** The standings the service returns for [season], empty when the key is
    absent. *)
Definition season_teams {json stat : Type} (up : Upstream json stat)
    (season : string) : result (list TeamStandings) :=
  standings_data <- get_standings_by_season up season ;;
  Ok (get (standings_of up standings_data) []).

(** The full block of the per-team season report. *)
Definition team_record (team_abbrev season : string) (team : TeamStandings)
  : string :=
  format_season season ++ " - " ++ team_abbrev ++ ":" ++ nl
    ++ "  Record: " ++ str_int (get (wins team) 0) ++ "-"
    ++ str_int (get (losses team) 0) ++ "-"
    ++ str_int (get (otLosses team) 0) ++ nl
    ++ "  Points: " ++ str_int (get (points team) 0) ++ nl
    ++ "  Goals For: " ++ str_int (get (goalFor team) 0) ++ nl
    ++ "  Goals Against: " ++ str_int (get (goalAgainst team) 0) ++ nl
    ++ "  Goal Diff: " ++ str_int (get (goalDifferential team) 0).

(** ** Sample data

    A small upstream service used to run the program on concrete inputs:
    a document holds the two lists the helpers read. *)

Record Doc : Type := mkDoc {
  doc_games : option (list Game);
  doc_standings : option (list TeamStandings)
}.

Definition sample_upstream (fetch : string -> result Doc) : Upstream Doc Z :=
  {| now_year := 2024;
     now_month := 11;
     today_iso := "2024-11-05";
     _fetch_json := fetch;
     games_of := doc_games;
     standings_of := doc_standings;
     leaders_of := fun _ _ => None;
     json_dumps := fun _ => "{}";
     upper := fun s => s;
     lower := fun s => s;
     stat_str := str_int;
     stat_3f := fun z => str_int z ++ ".000" |}.

(** A completed game between [home] and [away]. *)
Definition final_game (date home : string) (hs : Z) (away : string) (aw : Z)
  : Game :=
  {| id := Some 1;
     gameDate := Some date;
     venue := Some "Arena";
     gameState := Some "OFF";
     period := Some 3;
     homeTeam := Some (mkTeamInfo (Some home) (Some hs));
     awayTeam := Some (mkTeamInfo (Some away) (Some aw)) |}.

Definition serve_games (games : list Game) : string -> result Doc :=
  fun _ => Ok (mkDoc (Some games) None).

(** AAA won, won, then lost (most recent first). *)
Definition wwl_games : list Game :=
  [ final_game "2024-11-01" "AAA" 1 "DDD" 4;
    final_game "2024-11-03" "CCC" 2 "AAA" 5;
    final_game "2024-11-04" "AAA" 3 "BBB" 1 ].

(** AAA won, lost, then won (most recent first). *)
Definition wlw_games : list Game :=
  [ final_game "2024-11-04" "AAA" 3 "BBB" 1;
    final_game "2024-11-03" "CCC" 2 "AAA" 1;
    final_game "2024-11-01" "AAA" 4 "DDD" 0 ].

(** AAA beats BBB 3-2 at home, then loses 1-4 away. *)
Definition series_games : list Game :=
  [ final_game "2024-10-12" "AAA" 3 "BBB" 2;
    final_game "2024-10-15" "AAA" 6 "CCC" 0;
    final_game "2024-10-20" "BBB" 4 "AAA" 1 ].

Definition standing (team : string) (gp w l ot pts gf ga : Z)
  : TeamStandings :=
  {| teamAbbrev := Some team;
     gamesPlayed := Some gp;
     wins := Some w;
     losses := Some l;
     otLosses := Some ot;
     points := Some pts;
     goalFor := Some gf;
     goalAgainst := Some ga;
     goalDifferential := Some (gf - ga);
     divisionAbbrev := Some "A";
     conferenceAbbrev := Some "E" |}.

(** Season 20232024: 300 goals over 100 games, without team CCC; season
    20242025: 450 goals over 150 games. *)
Definition serve_standings : string -> result Doc :=
  fun url =>
    if String.eqb url (NHL_API_BASE ++ "/standings/20232024") then
      Ok (mkDoc None
            (Some [ standing "AAA" 50 30 15 5 65 160 140;
                    standing "BBB" 50 20 25 5 45 140 160 ]))
    else if String.eqb url (NHL_API_BASE ++ "/standings/20242025") then
      Ok (mkDoc None
            (Some [ standing "AAA" 50 28 18 4 60 150 140;
                    standing "BBB" 50 22 22 6 50 140 150;
                    standing "CCC" 50 25 20 5 55 160 155 ]))
    else Raise (Exception "404 Not Found").

Definition serve_nothing : string -> result Doc :=
  fun _ => Raise (Exception "connection refused").

Definition no_arguments : Arguments :=
  {| arg_date := None; arg_gameId := None; arg_division := None;
     arg_conference := None; arg_teamAbbrev := None; arg_season := None;
     arg_category := None; arg_limit := None; arg_team1 := None;
     arg_team2 := None; arg_seasons := None |}.

(** Twelve home wins of AAA on one date. *)
Definition twelve_wins : list Game :=
  repeat (final_game "2024-11-04" "AAA" 3 "BBB" 1) 12.

(** A completed matchup that ended with equal scores. *)
Definition tied_game : Game := final_game "2024-10-12" "AAA" 2 "BBB" 2.

Definition wwl_upstream : Upstream Doc Z :=
  sample_upstream (serve_games wwl_games).

Definition wlw_upstream : Upstream Doc Z :=
  sample_upstream (serve_games wlw_games).

Definition series_upstream : Upstream Doc Z :=
  sample_upstream (serve_games series_games).

Definition standings_upstream : Upstream Doc Z :=
  sample_upstream serve_standings.

Definition down_upstream : Upstream Doc Z :=
  sample_upstream serve_nothing.

Definition idle_upstream : Upstream Doc Z :=
  sample_upstream (serve_games []).

(** ** The rest of the client and the tool catalogue *)

Section ClientRest.

Variables json stat : Type.
Variable up : Upstream json stat.

Definition get_game_boxscore (game_id : Z) : result json :=
  _fetch_json up
    (NHL_API_BASE ++ "/gamecenter/" ++ str_int game_id ++ "/boxscore").

(** The [season] parameter is accepted and not used. *)
Definition get_player_stats (player_id : Z) (season : option string)
  : result json :=
  _fetch_json up (NHL_API_BASE ++ "/player/" ++ str_int player_id ++ "/landing").

Definition get_playoff_series (season : option string) : result json :=
  let season_str := str_or season (_get_current_season up) in
  _fetch_json up (NHL_API_BASE ++ "/playoff-series/" ++ season_str ++ "/playoff").

Definition get_team_roster (team_abbrev : string) (season : option string)
  : result json :=
  let season_str := str_or season (_get_current_season up) in
  _fetch_json up
    (NHL_API_BASE ++ "/roster/" ++ team_abbrev ++ "/" ++ season_str).

End ClientRest.

Arguments get_game_boxscore {json stat}.
Arguments get_player_stats {json stat}.
Arguments get_playoff_series {json stat}.
Arguments get_team_roster {json stat}.

(** An entry of [TOOLS]: the tool's name, the keys of the ["properties"]
    of its [inputSchema] and its ["required"] keys, in the order of the
    source (the descriptions are left out). *)
Record Tool : Type := mkTool {
  tool_name : string;
  tool_properties : list string;
  tool_required : list string
}.

Definition TOOLS : list Tool :=
  [ mkTool "get_live_games" ["date"] [];
    mkTool "get_game_details" ["gameId"] ["gameId"];
    mkTool "get_standings" ["date"; "division"; "conference"] [];
    mkTool "get_team_stats" ["teamAbbrev"; "season"] ["teamAbbrev"];
    mkTool "get_player_stats" ["category"; "limit"; "season"] [];
    mkTool "get_goalie_stats" ["limit"; "season"] [];
    mkTool "get_schedule" ["date"; "teamAbbrev"] [];
    mkTool "get_playoff_bracket" ["season"] [];
    mkTool "compare_teams" ["team1"; "team2"; "season"] ["team1"; "team2"];
    mkTool "get_team_streak" ["teamAbbrev"] ["teamAbbrev"];
    mkTool "compare_seasons" ["teamAbbrev"; "seasons"] ["seasons"] ].

Definition is_some {A : Type} (o : option A) : bool :=
  match o with
  | Some _ => true
  | None => false
  end.

(** [key in arguments]. *)
Definition has_key (key : string) (arguments : Arguments) : bool :=
  if String.eqb key "date" then is_some (arg_date arguments)
  else if String.eqb key "gameId" then is_some (arg_gameId arguments)
  else if String.eqb key "division" then is_some (arg_division arguments)
  else if String.eqb key "conference" then is_some (arg_conference arguments)
  else if String.eqb key "teamAbbrev" then is_some (arg_teamAbbrev arguments)
  else if String.eqb key "season" then is_some (arg_season arguments)
  else if String.eqb key "category" then is_some (arg_category arguments)
  else if String.eqb key "limit" then is_some (arg_limit arguments)
  else if String.eqb key "team1" then is_some (arg_team1 arguments)
  else if String.eqb key "team2" then is_some (arg_team2 arguments)
  else if String.eqb key "seasons" then is_some (arg_seasons arguments)
  else false.

(** The first required key of [tool] that [arguments] lacks. *)
Definition first_missing (tool : Tool) (arguments : Arguments)
  : option string :=
  find (fun key => negb (has_key key arguments)) (tool_required tool).

(** ** More words of the specification *)

(** The rows of a table, one after the other. *)
Definition rows {A : Type} (row : A -> string) (xs : list A) : string :=
  fold_right (fun x below => row x ++ below) "" xs.

(** The rows of a ranked table: the entry at position [i] (from 0) is
    printed by [row (first + i)]. *)
Fixpoint ranked_rows {A : Type} (row : Z -> A -> string) (first : Z)
    (xs : list A) : string :=
  match xs with
  | [] => ""
  | x :: rest => row first x ++ ranked_rows row (first + 1) rest
  end.

(** The test of the [division] and [conference] filters of
    [get_standings], each applied only when its key is given. *)
Definition passes_filters {json stat : Type} (up : Upstream json stat)
    (arguments : Arguments) (t : TeamStandings) : bool :=
  match arg_division arguments with
  | Some d =>
      String.eqb (lower up (get (divisionAbbrev t) "")) (lower up d)
  | None => true
  end
  && match arg_conference arguments with
     | Some c =>
         String.eqb (lower up (get (conferenceAbbrev t) "")) (lower up c)
     | None => true
     end.

(** The outcome [r] of a client call that fetches one URL and returns
    what [read] finds in the document: the URL is below [NHL_API_BASE],
    and a failed fetch is passed on unchanged. *)
Definition fetched {json stat A : Type} (up : Upstream json stat)
    (r : result A) (read : json -> A) : Prop :=
  exists url,
    prefix NHL_API_BASE url = true
    /\ r = (data <- _fetch_json up url ;; Ok (read data)).

(** The year the current season starts in. *)
Definition season_start {json stat : Type} (up : Upstream json stat) : Z :=
  if 10 <=? now_month up then now_year up else now_year up - 1.

(** No completed game of [games] ended with equal scores. *)
Definition no_tie (team1 : string) (games : list Game) : Prop :=
  Forall (fun g =>
            is_completed (gameState g) = true ->
            team1_score team1 g <> team2_score team1 g)
    games.

(** The integers [lo], [lo + 1], ..., [lo + n - 1]. *)
Fixpoint z_range (lo : Z) (n : nat) : list Z :=
  match n with
  | O => []
  | S k => lo :: z_range (lo + 1) k
  end.

(** A game still to be played. *)
Definition future_game : Game :=
  {| id := Some 2;
     gameDate := Some "2024-12-01";
     venue := Some "Arena";
     gameState := Some "FUT";
     period := None;
     homeTeam := Some (mkTeamInfo (Some "AAA") None);
     awayTeam := Some (mkTeamInfo (Some "CCC") None) |}.

Definition upcoming_upstream : Upstream Doc Z :=
  sample_upstream (serve_games [future_game]).

(** A service whose answers hold none of the keys the program reads. *)
Definition bare_upstream : Upstream Doc Z :=
  sample_upstream (fun _ => Ok (mkDoc None None)).

Definition team1_only : Arguments :=
  {| arg_date := None; arg_gameId := None; arg_division := None;
     arg_conference := None; arg_teamAbbrev := None; arg_season := None;
     arg_category := None; arg_limit := None; arg_team1 := Some "AAA";
     arg_team2 := None; arg_seasons := None |}.

Definition division_of_season : Arguments :=
  {| arg_date := Some "20242025"; arg_gameId := None;
     arg_division := Some "A"; arg_conference := None;
     arg_teamAbbrev := None; arg_season := None; arg_category := None;
     arg_limit := None; arg_team1 := None; arg_team2 := None;
     arg_seasons := None |}.

(** * Properties *)

(** ** Strings *)

Lemma substring_split (s : string) (n : nat) :
  substring 0 n s ++ substring n (String.length s - n) s = s.
Proof.
  revert n; induction s as [|c s IH]; intros [|n]; simpl; try reflexivity.
  - f_equal. specialize (IH O).
    rewrite Nat.sub_0_r in IH. destruct s; exact IH.
  - f_equal. apply IH.
Qed.

Lemma substring_length (s : string) (n : nat) :
  (n <= String.length s)%nat -> String.length (substring 0 n s) = n.
Proof.
  revert n; induction s as [|c s IH]; intros [|n] H; simpl in *;
    try reflexivity; try lia.
  f_equal. apply IH. lia.
Qed.

Lemma string_length_app (a b : string) :
  String.length (a ++ b) = (String.length a + String.length b)%nat.
Proof. induction a as [|c a IH]; simpl; [reflexivity | now rewrite IH]. Qed.

Lemma string_app_assoc (a b c : string) : (a ++ b) ++ c = a ++ (b ++ c).
Proof. induction a as [|x a IH]; simpl; [reflexivity | now rewrite IH]. Qed.

(** ** The season helpers *)

(** C7.  [format_season] splits a season of exactly eight characters into
    its first four and its last four characters around a hyphen, and
    returns a string of any other length unchanged; being a total function
    it fails on no input. *)
Theorem format_season_spec (s : string) :
  (String.length s = 8%nat ->
   exists a b : string,
     s = a ++ b /\ String.length a = 4%nat /\ String.length b = 4%nat /\
     format_season s = a ++ "-" ++ b) /\
  (String.length s <> 8%nat -> format_season s = s).
Proof.
  unfold format_season, slice. split; intros H.
  - rewrite H. simpl Nat.eqb. cbv iota.
    exists (substring 0 4 s), (substring 4 4 s).
    assert (Hs : substring 0 4 s ++ substring 4 4 s = s).
    { pose proof (substring_split s 4) as E. rewrite H in E. exact E. }
    assert (Ha : String.length (substring 0 4 s) = 4%nat)
      by (apply substring_length; lia).
    repeat split; auto.
    pose proof (string_length_app (substring 0 4 s) (substring 4 4 s)) as L.
    rewrite Hs, H, Ha in L. lia.
  - destruct (Nat.eqb_spec (String.length s) 8); [contradiction | reflexivity].
Qed.

(** ** The average of the season report *)

Lemma rne_near (p q : Z) : 0 < q -> 2 * Z.abs (rne p q * q - p) <= q.
Proof.
  intros Hq. unfold rne.
  pose proof (Z.div_mod p q ltac:(lia)) as E.
  pose proof (Z.mod_pos_bound p q Hq) as B.
  destruct (Z.ltb_spec (2 * (p mod q)) q);
    [|destruct (Z.ltb_spec q (2 * (p mod q)));
      [|destruct (Z.even (p / q))]]; nia.
Qed.

Lemma rne_small (p q : Z) : 0 <= p -> 2 * p < q -> rne p q = 0.
Proof.
  intros Hp Hq. unfold rne.
  rewrite Z.div_small, Z.mod_small by lia.
  destruct (Z.ltb_spec (2 * p) q); [reflexivity | lia].
Qed.

Lemma rne_nonneg (p q : Z) : 0 <= p -> 0 < q -> 0 <= rne p q.
Proof.
  intros Hp Hq. unfold rne.
  pose proof (Z.div_pos p q Hp Hq).
  repeat match goal with |- context [if ?c then _ else _] => destruct c end;
    lia.
Qed.

(** The exponent chosen for a quotient of moderate size is negative, and
    unless it is the subnormal one its weight is finer than a hundredth of
    the divisor's unit. *)
Lemma f64_exponent_fine (p q : Z) :
  0 < p < 2 ^ 45 -> 0 < q ->
  let k := - f64_exponent p q in
  8 <= k /\ (100 * q < 2 ^ k \/ k = 1074).
Proof.
  intros Hp Hq. cbn zeta. unfold f64_exponent.
  assert (Hlp : Z.log2 p < 45) by (apply Z.log2_lt_pow2; lia).
  pose proof (Z.log2_nonneg q) as Hlq0.
  pose proof (Z.log2_spec q Hq) as [Hq1 Hq2].
  set (d := Z.log2 p - Z.log2 q).
  set (fl := if ratio_ge_pow2 p q d then d else d - 1).
  assert (Hfl : fl <= d) by (subst fl; destruct (ratio_ge_pow2 p q d); lia).
  destruct (Z.max_spec (fl - 52) (- 1074)) as [[Hlt ->] | [Hge ->]].
  - split; [lia | now right].
  - split; [lia | left].
    assert (H8 : Z.log2 q + 8 <= - (fl - 52)) by lia.
    pose proof (Z.pow_le_mono_r 2 _ _ ltac:(lia) H8) as Hpow.
    rewrite Z.pow_add_r in Hpow by lia.
    rewrite Z.pow_succ_r in Hq2 by lia.
    change (2 ^ 8) with 256 in Hpow. lia.
Qed.

(** The exponent of a normal result places the exact quotient in the
    binade [2^(e+52) <= p / q < 2^(e+53)], so that the significand has
    53 bits. *)
Lemma f64_exponent_binade (p q : Z) :
  0 < p -> 0 < q ->
  let e := f64_exponent p q in
  - 1074 < e ->
  ratio_ge_pow2 p q (e + 52) = true /\ ratio_ge_pow2 p q (e + 53) = false.
Proof.
  intros Hp Hq. cbn zeta. unfold f64_exponent.
  pose proof (Z.log2_spec p Hp) as [Hp1 Hp2].
  pose proof (Z.log2_spec q Hq) as [Hq1 Hq2].
  pose proof (Z.log2_nonneg p) as Hlp. pose proof (Z.log2_nonneg q) as Hlq.
  rewrite Z.pow_succ_r in Hp2, Hq2 by lia.
  set (lp := Z.log2 p) in *. set (lq := Z.log2 q) in *.
  set (d := lp - lq).
  assert (Hlow : ratio_ge_pow2 p q (d - 1) = true).
  { unfold ratio_ge_pow2.
    destruct (Z.leb_spec 0 (d - 1)); apply Z.leb_le.
    - assert (E : 2 ^ lp = 2 * 2 ^ lq * 2 ^ (d - 1)).
      { rewrite <- Z.pow_succ_r, <- Z.pow_add_r by lia. f_equal. lia. }
      nia.
    - assert (E : 2 * 2 ^ lq = 2 ^ lp * 2 ^ (- (d - 1))).
      { rewrite <- Z.pow_succ_r, <- Z.pow_add_r by lia. f_equal. lia. }
      assert (0 < 2 ^ (- (d - 1))) by (apply Z.pow_pos_nonneg; lia).
      nia. }
  assert (Hhigh : ratio_ge_pow2 p q (d + 1) = false).
  { unfold ratio_ge_pow2.
    destruct (Z.leb_spec 0 (d + 1)); apply Z.leb_gt.
    - assert (E : 2 * 2 ^ lp = 2 ^ lq * 2 ^ (d + 1)).
      { rewrite <- Z.pow_succ_r, <- Z.pow_add_r by lia. f_equal. lia. }
      assert (0 < 2 ^ (d + 1)) by (apply Z.pow_pos_nonneg; lia).
      nia.
    - assert (E : 2 ^ lq = 2 * 2 ^ lp * 2 ^ (- (d + 1))).
      { rewrite <- Z.pow_succ_r, <- Z.pow_add_r by lia. f_equal. lia. }
      assert (0 < 2 ^ (- (d + 1))) by (apply Z.pow_pos_nonneg; lia).
      nia. }
  destruct (ratio_ge_pow2 p q d) eqn:Hd; intros He.
  - rewrite Z.max_l in * by lia.
    replace (d - 52 + 52) with d by lia.
    replace (d - 52 + 53) with (d + 1) by lia. auto.
  - rewrite Z.max_l in * by lia.
    replace (d - 1 - 52 + 52) with (d - 1) by lia.
    replace (d - 1 - 52 + 53) with d by lia. auto.
Qed.

Lemma avg_goals_2f_zero (total_goals total_games : Z) :
  total_games <= 0 ->
  avg_goals_2f total_goals total_games = Ok (show_hundredths 0).
Proof.
  intros H. unfold avg_goals_2f.
  destruct (Z.ltb_spec 0 total_games); [lia | reflexivity].
Qed.

Lemma avg_goals_2f_nearest (total_goals total_games : Z) :
  0 <= total_goals < 2 ^ 45 -> 0 < total_games ->
  exists h,
    avg_goals_2f total_goals total_games = Ok (show_hundredths h)
    /\ nearest_hundredth h total_goals total_games.
Proof.
  intros HG HP. unfold avg_goals_2f, nearest_hundredth.
  destruct (Z.ltb_spec 0 total_games) as [_|]; [|lia].
  unfold true_div.
  destruct (Z.eqb_spec total_games 0) as [|_]; [lia|].
  destruct (Z.ltb_spec total_games 0) as [|_]; [lia|].
  destruct (Z.ltb_spec total_goals 0) as [|_]; [lia|].
  rewrite (Z.abs_eq total_goals), (Z.abs_eq total_games) by lia.
  cbn [xorb].
  destruct (Z.eqb_spec total_goals 0) as [->|Hnz].
  - exists 0. split; [reflexivity | lia].
  - destruct (f64_exponent_fine total_goals total_games) as [Hk Hfine];
      [lia | lia |].
    cbn zeta in Hk, Hfine.
    set (e := f64_exponent total_goals total_games) in *.
    destruct (Z.ltb_spec 971 e) as [|_]; [lia|].
    destruct (Z.eqb_spec e 971) as [|_]; [lia|].
    cbn [orb andb bind]. unfold format_2f, hundredths.
    cbn [neg mant expo].
    unfold scale_rne.
    destruct (Z.leb_spec 0 (- e)) as [_|]; [|lia].
    destruct (Z.leb_spec 0 e) as [|_]; [lia|].
    rewrite Z.mul_1_l.
    set (k := - e) in *. set (m := rne (total_goals * 2 ^ k) total_games).
    exists (rne (100 * m) (2 ^ k)). split; [reflexivity|].
    assert (H2k : 0 < 2 ^ k) by (apply Z.pow_pos_nonneg; lia).
    pose proof (rne_near (total_goals * 2 ^ k) total_games HP) as Hm.
    fold m in Hm.
    destruct (Z.lt_ge_cases (100 * total_games) (2 ^ k)) as [Hfast|Hslow].
    + pose proof (rne_near (100 * m) (2 ^ k) H2k) as Hh.
      set (h := rne (100 * m) (2 ^ k)) in *.
      clearbody h m. clear Hfine. nia.
    + destruct Hfine as [|Hsub]; [lia|].
      assert (Hm0 : 0 <= m).
      { apply rne_nonneg; [|lia]. apply Z.mul_nonneg_nonneg; lia. }
      assert (Hmle : m <= 100 * total_goals + 1) by (clearbody m; nia).
      rewrite rne_small.
      * rewrite Hsub in Hslow. change (2 ^ 45) with 35184372088832 in HG.
        assert (2 ^ 60 <= 2 ^ 1074) by (apply Z.pow_le_mono_r; lia).
        change (2 ^ 60) with 1152921504606846976 in *. lia.
      * lia.
      * rewrite Hsub. change (2 ^ 45) with 35184372088832 in HG.
        assert (2 ^ 60 <= 2 ^ 1074) by (apply Z.pow_le_mono_r; lia).
        change (2 ^ 60) with 1152921504606846976 in *. lia.
Qed.

Section Properties.

Variables json stat : Type.
Variable up : Upstream json stat.

(** C8.  With the clock reading year [Y] and month [m],
    [_get_current_season] is [Y] followed by [Y + 1] from October on and
    [Y - 1] followed by [Y] before October. *)
Theorem current_season_spec :
  (10 <= now_month up ->
   _get_current_season up
   = str_int (now_year up) ++ str_int (now_year up + 1)) /\
  (now_month up < 10 ->
   _get_current_season up
   = str_int (now_year up - 1) ++ str_int (now_year up)).
Proof.
  unfold _get_current_season.
  split; intros H; destruct (Z.leb_spec 10 (now_month up)); auto; lia.
Qed.

(** ** Empty inputs *)

(** C9.  On the empty list the three table formatters return the header
    line and the separator line and nothing else, and the score board tool
    answers that no games are scheduled instead of a table. *)
Theorem empty_inputs (category : string) (arguments : Arguments) :
  format_standings []
  = "Team | GP | W | L | OT | PTS | GF | GA | DIFF | Div" ++ nl
      ++ repeat_str "-" 70 ++ nl
  /\ format_player_stats up [] category
     = "Rank | Player | Team | Pos | " ++ upper up category ++ nl
         ++ repeat_str "-" 60 ++ nl
  /\ format_goalie_stats up [] category
     = "Rank | Goalie | Team | " ++ upper up category ++ nl
         ++ repeat_str "-" 60 ++ nl
  /\ (get_todays_scores up (arg_date arguments) = Ok [] ->
      call_tool up "get_live_games" arguments
      = text_content "No games scheduled for this date").
Proof.
  repeat split.
  - unfold format_player_stats. cbn [enumerate_rows].
    now rewrite !string_app_assoc.
  - unfold format_goalie_stats. cbn [enumerate_rows].
    now rewrite !string_app_assoc.
  - intros H. unfold call_tool, call_tool_body.
    change (String.eqb "get_live_games" "get_live_games") with true.
    cbv iota. rewrite H. reflexivity.
Qed.

(** ** Errors *)

Lemma seasons_loop_failure
    (block : string -> list TeamStandings -> result string)
    (seasons : list string) (season : string) (e : exn) :
  In season seasons ->
  get_standings_by_season up season = Raise e ->
  forall acc, exists e', seasons_loop up block seasons acc = Raise e'.
Proof.
  intros Hin Hfail. induction seasons as [|s rest IH]; intros acc.
  - destruct Hin.
  - cbn [seasons_loop]. unfold bind at 1.
    destruct (get_standings_by_season up s) as [d|e0] eqn:Hs.
    + unfold bind at 1.
      destruct (block s (get (standings_of up d) [])) as [b|e1].
      * destruct Hin as [<- | Hin]; [congruence | apply IH; exact Hin].
      * now exists e1.
    + now exists e0.
Qed.

Ltac branch :=
  match goal with
  | |- context [if ?c then _ else _] => destruct c
  | |- context [bind ?m _] => destruct m; cbn [bind]
  | |- context [match ?m with _ => _ end] => destruct m
  end.

Lemma call_tool_body_text (name : string) (arguments : Arguments)
    (r : list TextContent) :
  call_tool_body up name arguments = Ok r -> exists s, r = text_content s.
Proof.
  unfold call_tool_body.
  repeat branch; intros H; inversion H; eauto.
Qed.

(** C6.  A failure never leaves a tool call as an exception.  A failed
    fetch inside an analytics helper becomes the helper's own text
    starting with "Error " and naming the helper's task; an exception
    raised anywhere else in the dispatcher becomes the text
    "Error executing {name}: {cause}"; and in every case the dispatcher
    returns one ordinary text payload. *)
Theorem errors_become_text :
  (forall team e,
      get_team_schedule up team None = Raise e ->
      analyze_streak up team = "Error analyzing streak: " ++ str_exn e) /\
  (forall team1 team2 season e,
      get_team_schedule up team1 season = Raise e ->
      compare_teams_head_to_head up team1 team2 season
      = "Error comparing teams: " ++ str_exn e) /\
  (forall seasons team season e,
      In season seasons ->
      get_standings_by_season up season = Raise e ->
      exists cause,
        compare_seasons up seasons team
        = "Error comparing seasons: " ++ str_exn cause) /\
  (forall name arguments e,
      call_tool_body up name arguments = Raise e ->
      call_tool up name arguments
      = text_content ("Error executing " ++ name ++ ": " ++ str_exn e)) /\
  (forall name arguments,
      exists s, call_tool up name arguments = [mkTextContent "text" s]).
Proof.
  repeat split.
  - intros team e H. unfold analyze_streak. now rewrite H.
  - intros team1 team2 season e H. unfold compare_teams_head_to_head.
    now rewrite H.
  - intros seasons team season e Hin H. unfold compare_seasons.
    destruct (falsy team).
    + destruct (seasons_loop_failure league_block seasons season e Hin H [])
        as [e' He'].
      rewrite He'. now exists e'.
    + destruct (seasons_loop_failure
                  (fun season teams =>
                     Ok (team_block (get team "") season teams))
                  seasons season e Hin H []) as [e' He'].
      rewrite He'. now exists e'.
  - intros name arguments e H. unfold call_tool. now rewrite H.
  - intros name arguments. unfold call_tool.
    destruct (call_tool_body up name arguments) as [r|e] eqn:H.
    + apply call_tool_body_text in H. destruct H as [s ->].
      now exists s.
    + cbn [try_except]. unfold text_content. eauto.
Qed.

(** ** Streak analysis *)

(** The sort of [completed_games] is the stable sort by decreasing date:
    it permutes its input, puts dates in decreasing order, and keeps the
    games of one date in the order they had. *)

Lemma insert_desc_perm (g : Game) (l : list Game) :
  Permutation (insert_desc g l) (g :: l).
Proof.
  induction l as [|h t IH]; cbn [insert_desc]; [reflexivity|].
  destruct (String.leb (date_key h) (date_key g)); [reflexivity|].
  rewrite IH. apply perm_swap.
Qed.

Lemma sort_desc_perm (l : list Game) : Permutation (sort_desc l) l.
Proof.
  induction l as [|g l IH]; cbn; [constructor|].
  rewrite insert_desc_perm. now constructor.
Qed.

Lemma insert_desc_sorted (g : Game) (l : list Game) :
  Sorted date_ge l -> Sorted date_ge (insert_desc g l).
Proof.
  induction l as [|h t IH]; intros Hs; cbn [insert_desc].
  - repeat constructor.
  - destruct (String.leb (date_key h) (date_key g)) eqn:E.
    + constructor; [exact Hs | constructor; exact E].
    + inversion Hs as [|? ? Ht Hh]; subst.
      constructor; [apply IH; exact Ht|].
      assert (Hgh : date_ge h g).
      { unfold date_ge.
        destruct (String.leb_total (date_key h) (date_key g)); congruence. }
      destruct t as [|h' t']; cbn [insert_desc].
      * constructor. exact Hgh.
      * destruct (String.leb (date_key h') (date_key g)).
        -- constructor. exact Hgh.
        -- inversion Hh; subst. now constructor.
Qed.

Lemma sort_desc_sorted (l : list Game) : Sorted date_ge (sort_desc l).
Proof.
  induction l as [|g l IH]; cbn; [constructor|].
  now apply insert_desc_sorted.
Qed.

Lemma insert_desc_stable (g : Game) (l : list Game) (d : string) :
  filter (fun x => String.eqb (date_key x) d) (insert_desc g l)
  = filter (fun x => String.eqb (date_key x) d) (g :: l).
Proof.
  induction l as [|h t IH]; [reflexivity|].
  cbn [insert_desc].
  destruct (String.leb (date_key h) (date_key g)) eqn:E; [reflexivity|].
  cbn [filter] in *. rewrite IH.
  destruct (String.eqb_spec (date_key g) d) as [Hg|Hg];
    destruct (String.eqb_spec (date_key h) d) as [Hh|Hh]; try reflexivity.
  exfalso. rewrite Hg, Hh in E.
  destruct (String.leb_total d d); congruence.
Qed.

Lemma sort_desc_stable (l : list Game) (d : string) :
  filter (fun g => String.eqb (date_key g) d) (sort_desc l)
  = filter (fun g => String.eqb (date_key g) d) l.
Proof.
  induction l as [|g l IH]; [reflexivity|].
  change (sort_desc (g :: l)) with (insert_desc g (sort_desc l)).
  rewrite insert_desc_stable. cbn [filter]. now rewrite IH.
Qed.

Lemma letter_eqb (w b : bool) :
  String.eqb (letter w) (letter b) = Bool.eqb w b.
Proof. now destruct w, b. Qed.

(** The loop from a running streak of [c] games of result [b]: the count
    stops at 10 or at the first other result, and the lines recorded are
    those of the games read, the one that ended the streak included. *)
Lemma streak_loop_run (team : string) (games : list Game) :
  forall (c : nat) (b : bool) (r : list string),
    (0 < c < 10)%nat ->
    List.length r = c ->
    let k := run_length b (map (won team) games) in
    let st := streak_loop team games (mkStreak (Z.of_nat c) (letter b) r) in
    streak_count st = Z.min 10 (Z.of_nat (c + k))
    /\ streak_type st = letter b
    /\ recent_results st
       = (r ++ map (result_line team)
                 (firstn (Nat.min (10 - c) (S k)) games))%list.
Proof.
  induction games as [|g rest IH]; intros c b r Hc Hr; cbn zeta.
  - cbn [streak_loop map run_length streak_count streak_type recent_results].
    rewrite firstn_nil, Nat.add_0_r. cbn [map]. rewrite app_nil_r.
    repeat split. lia.
  - cbn [streak_loop streak_count streak_type recent_results map run_length].
    destruct (Z.eqb_spec (Z.of_nat c) 0) as [E|_]; [lia|].
    fold (letter (won team g)). rewrite letter_eqb.
    unfold append. rewrite length_app, Hr. cbn [List.length].
    destruct (Bool.eqb (won team g) b).
    + destruct (Z.leb_spec 10 (Z.of_nat (c + 1))) as [H10|H10].
      * cbn [streak_count streak_type recent_results].
        replace (Nat.min (10 - c) (S (S (run_length b (map (won team) rest)))))
          with 1%nat by lia.
        cbn [firstn map]. repeat split. lia.
      * replace (Z.of_nat c + 1) with (Z.of_nat (c + 1)) by lia.
        destruct (IH (c + 1)%nat b (r ++ [result_line team g])%list)
          as (Hcount & Htype & Hrecent).
        { lia. }
        { rewrite length_app, Hr. reflexivity. }
        cbn zeta in Hcount, Htype, Hrecent.
        rewrite Hcount, Htype, Hrecent. repeat split.
        -- f_equal. lia.
        -- replace (Nat.min (10 - c)
                      (S (S (run_length b (map (won team) rest)))))
             with (S (Nat.min (10 - (c + 1))
                        (S (run_length b (map (won team) rest))))) by lia.
           cbn [firstn map]. now rewrite <- app_assoc.
    + cbn [streak_count streak_type recent_results].
      replace (Nat.min (10 - c) 1) with 1%nat by lia.
      cbn [firstn map]. rewrite Nat.add_0_r. repeat split. lia.
Qed.

(** The loop from its initial state on a non-empty list. *)
Lemma streak_loop_spec (team : string) (g : Game) (rest : list Game) :
  let games := g :: rest in
  let st := streak_loop team games (mkStreak 0 "" []) in
  streak_count st = Z.min 10 (Z.of_nat (streak_length team games))
  /\ streak_type st = letter (won team g)
  /\ recent_results st
     = map (result_line team)
         (firstn (Nat.min 10 (S (streak_length team games))) games).
Proof.
  cbn zeta. cbn [streak_loop streak_count recent_results streak_length].
  fold (letter (won team g)).
  change (10 <=? Z.of_nat (List.length (append [] (result_line team g))))
    with false.
  cbv iota.
  destruct (streak_loop_run team rest 1 (won team g)
              (append [] (result_line team g))) as (Hc & Ht & Hr);
    [lia | reflexivity |].
  cbn zeta in Hc, Ht, Hr. change (Z.of_nat 1) with 1 in *.
  change (0 =? 0) with true. cbv iota.
  rewrite Hc, Ht, Hr. repeat split.
Qed.

(** The run counted by [streak_length] is a prefix of equal results that
    cannot be extended. *)
Lemma streak_length_maximal (team : string) (g : Game) (rest : list Game) :
  let games := g :: rest in
  let n := streak_length team games in
  Forall (fun x => won team x = won team g) (firstn n games)
  /\ (forall x, nth_error games n = Some x -> won team x <> won team g).
Proof.
  cbn zeta. cbn [streak_length firstn nth_error]. split.
  - constructor; [reflexivity|].
    induction rest as [|x rest IH]; cbn; [constructor|].
    destruct (Bool.eqb_spec (won team x) (won team g)); cbn;
      constructor; auto.
  - induction rest as [|x rest IH]; cbn; [discriminate|].
    destruct (Bool.eqb_spec (won team x) (won team g)) as [E|E]; cbn.
    + exact IH.
    + intros y Hy. now inversion Hy; subst.
Qed.

Lemma letter_is_W (w : bool) : String.eqb (letter w) "W" = w.
Proof. now destruct w. Qed.

(** The whole report of [analyze_streak] when the schedule holds a
    completed game. *)
Lemma analyze_streak_report (team : string) (schedule : json) (g : Game)
    (rest : list Game) :
  get_team_schedule up team None = Ok schedule ->
  completed_games (get (games_of up schedule) []) = g :: rest ->
  analyze_streak up team
  = team ++ " Current Streak: "
      ++ (str_int (Z.min 10 (Z.of_nat (streak_length team (g :: rest))))
            ++ (if won team g then " game winning streak"
                else " game losing streak"))
      ++ nl ++ nl ++ "Last 10 games:" ++ nl
      ++ join nl
           (map (result_line team)
              (firstn (Nat.min 10 (S (streak_length team (g :: rest))))
                 (g :: rest))).
Proof.
  intros Hfetch Hdone. unfold analyze_streak.
  rewrite Hfetch. cbn [bind].
  destruct (get (games_of up schedule) []) as [|g0 games] eqn:Hgames;
    [discriminate|].
  rewrite Hdone. cbn [try_except]. unfold streak_report, streak_text.
  destruct (streak_loop_spec team g rest) as (Hc & Ht & Hr).
  cbn zeta in Hc, Ht, Hr. rewrite Hc, Ht, Hr, letter_is_W.
  now destruct (won team g).
Qed.

(** C2.  When the schedule holds a completed game, the header of the
    report gives the length of the longest run of equal results at the
    head of the completed games (most recent first), capped at 10; a game
    is a win exactly when the team's score is strictly greater than the
    opponent's, so that equal scores count as a loss; and the header says
    "winning streak" when the most recent result is a win and
    "losing streak" otherwise. *)
Theorem streak_header (team : string) (schedule : json) (g : Game)
    (rest : list Game) :
  get_team_schedule up team None = Ok schedule ->
  completed_games (get (games_of up schedule) []) = g :: rest ->
  (forall game,
      won team game = true <-> opp_score team game < team_score team game)
  /\ exists lines,
      analyze_streak up team
      = team ++ " Current Streak: "
          ++ (str_int (Z.min 10 (Z.of_nat (streak_length team (g :: rest))))
                ++ (if won team g then " game winning streak"
                    else " game losing streak"))
          ++ nl ++ nl ++ "Last 10 games:" ++ nl ++ join nl lines.
Proof.
  intros Hfetch Hdone. split.
  - intros game. unfold won. apply Z.ltb_lt.
  - eexists. eapply analyze_streak_report; eassumption.
Qed.

(** ** Head-to-head comparison *)

Lemma completed_state (state : option string) :
  String.eqb (get state "") "OFF" || String.eqb (get state "") "FINAL"
  = is_completed state.
Proof. now destruct state. Qed.

Lemma future_state (state : option string) :
  String.eqb (get state "") "FUT" = opt_eqb state "FUT".
Proof. now destruct state. Qed.

(** One turn of the loop adds the matchup's line and, for a completed
    matchup, one win. *)
Lemma series_step_spec (team1 team2 : string) (st : Series) (game : Game) :
  series_step team1 team2 st game
  = mkSeries
      (team1_wins st + (if team1_won team1 game then 1 else 0))
      (team2_wins st + (if team2_won team1 game then 1 else 0))
      (append (results st) (matchup_line team1 team2 game)).
Proof.
  unfold series_step, matchup_line, team1_won, team2_won.
  rewrite completed_state, future_state.
  destruct (is_completed (gameState game));
    [destruct (team2_score team1 game <? team1_score team1 game)
    | destruct (opt_eqb (gameState game) "FUT")];
    cbn [andb negb]; f_equal; lia.
Qed.

Lemma series_fold_spec (team1 team2 : string) (matchups : list Game) :
  forall st,
    fold_left (series_step team1 team2) matchups st
    = mkSeries
        (team1_wins st + count (team1_won team1) matchups)
        (team2_wins st + count (team2_won team1) matchups)
        (results st ++ map (matchup_line team1 team2) matchups)%list.
Proof.
  unfold count.
  induction matchups as [|g rest IH]; intros st.
  - cbn. rewrite app_nil_r, !Z.add_0_r. now destruct st.
  - cbn [fold_left]. rewrite IH, series_step_spec.
    cbn [team1_wins team2_wins results map filter]. unfold append.
    rewrite <- app_assoc. cbn [app].
    destruct (team1_won team1 g), (team2_won team1 g);
      cbn [List.length]; f_equal; lia.
Qed.

(** C3.  When team1's schedule holds matchups against team2, the tally
    line reads "team1 W-L team2", where W counts the completed matchups in
    which team1's score exceeds team2's and L the other completed
    matchups, and the report has one line per matchup, in the order of the
    schedule. *)
Theorem series_report_spec (team1 team2 : string) (season : option string)
    (schedule : json) (g : Game) (rest : list Game) :
  get_team_schedule up team1 season = Ok schedule ->
  filter (is_matchup team1 team2) (get (games_of up schedule) []) = g :: rest ->
  compare_teams_head_to_head up team1 team2 season
  = "Head-to-Head: " ++ team1 ++ " vs " ++ team2 ++ nl ++ nl
      ++ "Season Series: " ++ team1 ++ " "
      ++ str_int (count (team1_won team1) (g :: rest)) ++ "-"
      ++ str_int (count (team2_won team1) (g :: rest)) ++ " " ++ team2
      ++ nl ++ nl
      ++ "Games:" ++ nl
      ++ join nl (map (matchup_line team1 team2) (g :: rest)).
Proof.
  intros Hfetch Hmatch. unfold compare_teams_head_to_head.
  rewrite Hfetch. cbn [bind].
  destruct (get (games_of up schedule) []) as [|g0 games] eqn:Hgames;
    [discriminate|].
  rewrite Hmatch. cbn [try_except].
  unfold series_report, series_loop. rewrite series_fold_spec.
  cbn [team1_wins team2_wins results app]. reflexivity.
Qed.

(** C10.  The two win counters add up to the number of completed
    matchups: a completed matchup increments exactly one of them, and one
    with equal scores increments team2's and is reported as a win of
    team2. *)
Theorem series_wins_total (team1 team2 : string) (matchups : list Game) :
  (let st := series_loop team1 team2 matchups in
   team1_wins st + team2_wins st
   = count (fun g => is_completed (gameState g)) matchups)
  /\ (forall st game,
         is_completed (gameState game) = true ->
         let st' := series_step team1 team2 st game in
         (team1_wins st' = team1_wins st + 1 /\ team2_wins st' = team2_wins st)
         \/ (team1_wins st' = team1_wins st
             /\ team2_wins st' = team2_wins st + 1))
  /\ (forall st game,
         is_completed (gameState game) = true ->
         team1_score team1 game = team2_score team1 game ->
         series_step team1 team2 st game
         = mkSeries (team1_wins st) (team2_wins st + 1)
             (append (results st)
                (get (gameDate game) "" ++ ": " ++ team1 ++ " "
                   ++ str_int (team1_score team1 game) ++ ", " ++ team2 ++ " "
                   ++ str_int (team2_score team1 game) ++ " - " ++ team2
                   ++ " WIN"))).
Proof.
  repeat split.
  - cbn zeta. unfold series_loop. rewrite series_fold_spec.
    cbn [team1_wins team2_wins]. unfold count, team1_won, team2_won.
    induction matchups as [|g rest IH]; [reflexivity|].
    cbn [filter].
    destruct (is_completed (gameState g));
      [destruct (team2_score team1 g <? team1_score team1 g)|];
      cbn [andb negb List.length]; lia.
  - intros st game Hdone. cbn zeta. rewrite series_step_spec.
    cbn [team1_wins team2_wins]. unfold team1_won, team2_won.
    rewrite Hdone.
    destruct (team2_score team1 game <? team1_score team1 game);
      cbn [andb negb]; lia.
  - intros st game Hdone Htie. rewrite series_step_spec.
    unfold team1_won, team2_won, matchup_line. rewrite Hdone, Htie.
    rewrite Z.ltb_irrefl. cbn [andb negb].
    f_equal; [lia | now rewrite !string_app_assoc].
Qed.

(** ** Season comparison *)

Lemma sum_field_total (field : TeamStandings -> option Z)
    (teams : list TeamStandings) :
  sum_field field teams = total field teams.
Proof.
  unfold sum_field.
  assert (H : forall acc,
             fold_left (fun a t => a + get (field t) 0) teams acc
             = acc + total field teams).
  { induction teams as [|t rest IH]; intros acc;
      cbn [fold_left]; unfold total; cbn [fold_right]; [lia|].
    fold (total field rest). rewrite IH. lia. }
  now rewrite H.
Qed.

(** The loop over the seasons appends one block per season, in order,
    when every fetch answers and every block is computed. *)
Lemma seasons_loop_blocks
    (block : string -> list TeamStandings -> result string)
    (seasons : list string) (blocks : list string) :
  Forall2 (fun season b =>
             exists teams,
               season_teams up season = Ok teams /\ block season teams = Ok b)
    seasons blocks ->
  forall acc, seasons_loop up block seasons acc = Ok (acc ++ blocks)%list.
Proof.
  induction 1 as [|season b seasons blocks (teams & Hfetch & Hblock) _ IH];
    intros acc.
  - cbn. now rewrite app_nil_r.
  - cbn [seasons_loop]. unfold season_teams in Hfetch.
    destruct (get_standings_by_season up season) as [d|e];
      cbn [bind] in *; [|discriminate].
    injection Hfetch as ->. rewrite Hblock. cbn [bind].
    rewrite IH. unfold append. now rewrite <- app_assoc.
Qed.

Lemma league_block_spec (season : string) (teams : list TeamStandings) :
  0 <= total goalFor teams < 2 ^ 45 ->
  exists h,
    league_block season teams
    = Ok (league_record season (Z.of_nat (List.length teams))
            (total goalFor teams) h)
    /\ (total gamesPlayed teams <= 0 -> h = 0)
    /\ (0 < total gamesPlayed teams ->
        nearest_hundredth h (total goalFor teams) (total gamesPlayed teams)).
Proof.
  intros Hgoals. unfold league_block. rewrite !sum_field_total.
  destruct (Z.lt_ge_cases 0 (total gamesPlayed teams)) as [Hpos|Hnone].
  - destruct (avg_goals_2f_nearest _ _ Hgoals Hpos) as (h & -> & Hh).
    exists h. split; [reflexivity|]. split; [lia | auto].
  - rewrite avg_goals_2f_zero by lia.
    exists 0. split; [reflexivity|]. split; [reflexivity | lia].
Qed.

(** C4.  In league-wide mode, when every season's standings are fetched,
    the report has one block per season in the order of the input, giving
    the number of teams, the sum of the goals for of all teams and the
    average written with two decimals: 0.00 when no game was played and
    otherwise the hundredth nearest to total goals divided by total games,
    so that no division by zero occurs.  (Goal totals are taken below
    2^45, where the float division is exact enough for that.) *)
Theorem league_mode_blocks (seasons : list string) (team : option string) :
  falsy team = true ->
  Forall (fun season =>
            exists teams,
              season_teams up season = Ok teams
              /\ 0 <= total goalFor teams < 2 ^ 45)
    seasons ->
  exists blocks,
    compare_seasons up seasons team
    = "Season Comparison:" ++ nl ++ nl ++ join (nl ++ nl) blocks
    /\ Forall2
         (fun season block =>
            exists teams h,
              season_teams up season = Ok teams
              /\ block
                 = league_record season (Z.of_nat (List.length teams))
                     (total goalFor teams) h
              /\ (total gamesPlayed teams <= 0 -> h = 0)
              /\ (0 < total gamesPlayed teams ->
                  nearest_hundredth h (total goalFor teams)
                    (total gamesPlayed teams)))
         seasons blocks.
Proof.
  intros Hmode Hall.
  assert (Hblocks :
            exists blocks,
              Forall2
                (fun season block =>
                   exists teams h,
                     season_teams up season = Ok teams
                     /\ league_block season teams = Ok block
                     /\ block
                        = league_record season
                            (Z.of_nat (List.length teams))
                            (total goalFor teams) h
                     /\ (total gamesPlayed teams <= 0 -> h = 0)
                     /\ (0 < total gamesPlayed teams ->
                         nearest_hundredth h (total goalFor teams)
                           (total gamesPlayed teams)))
                seasons blocks).
  { induction Hall as [|season rest (teams & Hfetch & Hgoals) _ [blocks IH]].
    - exists []. constructor.
    - destruct (league_block_spec season teams Hgoals)
        as (h & Hblock & Hzero & Hnear).
      eexists (_ :: blocks). constructor; [|exact IH].
      exists teams, h. repeat split; eauto. }
  destruct Hblocks as [blocks Hblocks]. exists blocks. split.
  - unfold compare_seasons. rewrite Hmode.
    rewrite (seasons_loop_blocks league_block seasons blocks); [reflexivity|].
    eapply Forall2_impl; [|exact Hblocks].
    intros season block (teams & h & Hfetch & Hblock & _). eauto.
  - eapply Forall2_impl; [|exact Hblocks].
    intros season block (teams & h & Hfetch & _ & Hrest). eauto.
Qed.

Lemma opt_eqb_eq (a : option string) (b : string) :
  opt_eqb a b = true <-> a = Some b.
Proof.
  destruct a as [s|]; cbn; [|split; discriminate].
  rewrite String.eqb_eq. split; congruence.
Qed.

Lemma find_team_none (team : string) (teams : list TeamStandings) :
  (forall t, In t teams -> teamAbbrev t <> Some team) ->
  find_team team teams = None.
Proof.
  intros H. unfold find_team.
  induction teams as [|t rest IH]; [reflexivity|]. cbn [find].
  destruct (opt_eqb (teamAbbrev t) team) eqn:E.
  - apply opt_eqb_eq in E. exfalso. apply (H t); [now left | exact E].
  - apply IH. intros x Hx. apply H. now right.
Qed.

Lemma find_team_first (team : string)
    (before : list TeamStandings) (t : TeamStandings)
    (after : list TeamStandings) :
  teamAbbrev t = Some team ->
  (forall x, In x before -> teamAbbrev x <> Some team) ->
  find_team team (before ++ t :: after) = Some t.
Proof.
  intros Ht H. unfold find_team.
  induction before as [|x rest IH]; simpl.
  - apply opt_eqb_eq in Ht. now rewrite Ht.
  - destruct (opt_eqb (teamAbbrev x) team) eqn:E.
    + apply opt_eqb_eq in E. exfalso. apply (H x); [now left | exact E].
    + apply IH. intros y Hy. apply H. now right.
Qed.

(** C5.  In per-team mode, when every season's standings are fetched, the
    report has one block per season in the order of the input.  The block
    of a season none of whose records carries exactly the abbreviation
    asked for ends with "No data found"; otherwise the block gives the
    record, points, goals for, goals against and goal differential of the
    first record that carries it. *)
Theorem team_mode_blocks (seasons : list string) (team : string) :
  team <> "" ->
  Forall (fun season => exists teams, season_teams up season = Ok teams)
    seasons ->
  exists blocks,
    compare_seasons up seasons (Some team)
    = "Season Comparison for " ++ team ++ ":" ++ nl ++ nl
        ++ join (nl ++ nl) blocks
    /\ Forall2
         (fun season block =>
            exists teams,
              season_teams up season = Ok teams
              /\ ((forall t, In t teams -> teamAbbrev t <> Some team) ->
                  block
                  = format_season season ++ " - " ++ team
                      ++ ": No data found")
              /\ (forall before t after,
                     teams = (before ++ t :: after)%list ->
                     teamAbbrev t = Some team ->
                     (forall x, In x before -> teamAbbrev x <> Some team) ->
                     block = team_record team season t))
         seasons blocks.
Proof.
  intros Hteam Hall.
  assert (Hblocks :
            exists blocks,
              Forall2
                (fun season block =>
                   exists teams,
                     season_teams up season = Ok teams
                     /\ block = team_block team season teams)
                seasons blocks).
  { induction Hall as [|season rest (teams & Hfetch) _ [blocks IH]].
    - exists []. constructor.
    - eexists (_ :: blocks). constructor; [|exact IH]. eauto. }
  destruct Hblocks as [blocks Hblocks]. exists blocks. split.
  - unfold compare_seasons. cbn [falsy get].
    destruct (String.eqb_spec team "") as [|_]; [contradiction|].
    rewrite (seasons_loop_blocks
               (fun season teams => Ok (team_block team season teams))
               seasons blocks); [reflexivity|].
    eapply Forall2_impl; [|exact Hblocks].
    intros season block (teams & Hfetch & ->). eauto.
  - eapply Forall2_impl; [|exact Hblocks].
    intros season block (teams & Hfetch & ->).
    exists teams. repeat split; [exact Hfetch | |].
    + intros Hnone. unfold team_block.
      now rewrite find_team_none.
    + intros before t after -> Ht Hbefore. unfold team_block.
      now rewrite find_team_first.
Qed.

End Properties.

(** * Further properties *)

(** ** Strings and columns *)

Lemma substring_length_gen (s : string) :
  forall n m,
    String.length (substring n m s) = Nat.min m (String.length s - n).
Proof.
  induction s as [|c s IH]; intros [|n] [|m]; simpl; try reflexivity.
  - now rewrite IH, Nat.sub_0_r.
  - apply IH.
  - apply IH.
Qed.

Lemma substring_app_l (a b : string) :
  substring 0 (String.length a) (a ++ b) = a.
Proof. induction a as [|c a IH]; simpl; [now destruct b | now rewrite IH]. Qed.

Lemma substring_whole (s : string) : substring 0 (String.length s) s = s.
Proof. induction s as [|c s IH]; simpl; [reflexivity | now rewrite IH]. Qed.

Lemma substring_app_r (a b : string) :
  substring (String.length a) (String.length b) (a ++ b) = b.
Proof. induction a as [|c a IH]; simpl; [apply substring_whole | exact IH]. Qed.

Lemma repeat_str_length (n : nat) : String.length (repeat_str " " n) = n.
Proof. induction n as [|n IH]; simpl; [reflexivity | now rewrite IH]. Qed.

(** Padding never cuts: a padded cell is as wide as the column, or as
    wide as its content when that is wider; and the name column of the
    leader boards, cut before it is padded, is always 25 characters
    wide. *)
Theorem column_widths (w : nat) (s : string) :
  String.length (ljust w s) = Nat.max w (String.length s)
  /\ String.length (rjust w s) = Nat.max w (String.length s)
  /\ String.length (ljust 25 (slice 0 25 s)) = 25%nat.
Proof.
  unfold ljust, rjust, slice.
  rewrite !string_length_app, !repeat_str_length, substring_length_gen.
  repeat split; lia.
Qed.

(** [format_season] is idempotent: its result never has eight characters,
    so formatting a formatted season changes nothing. *)
Theorem format_season_idempotent (s : string) :
  String.length (format_season s) <> 8%nat
  /\ format_season (format_season s) = format_season s.
Proof.
  assert (H : String.length (format_season s) <> 8%nat).
  { unfold format_season, slice.
    destruct (Nat.eqb_spec (String.length s) 8) as [E|E]; [|exact E].
    rewrite !string_length_app, !substring_length_gen, E. simpl. lia. }
  split; [exact H|].
  unfold format_season at 1.
  destruct (Nat.eqb_spec (String.length (format_season s)) 8);
    [contradiction | reflexivity].
Qed.

Lemma z_range_in (n : nat) :
  forall lo z, lo <= z < lo + Z.of_nat n -> In z (z_range lo n).
Proof.
  induction n as [|n IH]; intros lo z H; [lia|].
  cbn [z_range]. destruct (Z.eq_dec lo z) as [->|Hne]; [now left|].
  right. apply IH. lia.
Qed.

(** A year of four digits is printed with four characters. *)
Lemma str_int_four_digits (z : Z) :
  1000 <= z <= 9999 -> String.length (str_int z) = 4%nat.
Proof.
  intros H.
  assert (Hall : forallb (fun y => Nat.eqb (String.length (str_int y)) 4)
                   (z_range 1000 (Z.to_nat 9000)) = true)
    by (vm_compute; reflexivity).
  rewrite forallb_forall in Hall.
  apply Nat.eqb_eq, Hall, z_range_in. rewrite Z2Nat.id; lia.
Qed.

Lemma format_season_halves (a b : string) :
  String.length a = 4%nat -> String.length b = 4%nat ->
  format_season (a ++ b) = a ++ "-" ++ b.
Proof.
  intros Ha Hb. unfold format_season, slice.
  rewrite string_length_app, Ha, Hb. simpl Nat.eqb. cbv iota.
  change (8 - 4)%nat with 4%nat. change (4 - 0)%nat with 4%nat.
  pose proof (substring_app_l a b) as L. rewrite Ha in L.
  pose proof (substring_app_r a b) as R. rewrite Ha, Hb in R.
  now rewrite L, R.
Qed.

(** Whenever goals divided by games has at most two decimals, the average
    is printed exactly. *)
Theorem avg_goals_exact (total_goals total_games h : Z) :
  0 <= total_goals < 2 ^ 45 -> 0 < total_games ->
  100 * total_goals = h * total_games ->
  avg_goals_2f total_goals total_games = Ok (show_hundredths h).
Proof.
  intros HG HP Hexact.
  destruct (avg_goals_2f_nearest total_goals total_games HG HP)
    as (h' & -> & Hnear).
  unfold nearest_hundredth in Hnear.
  assert (h' = h) by nia. now subst.
Qed.

Section Further.

Variables json stat : Type.
Variable up : Upstream json stat.

(** ** The client *)

(** For a clock whose year has four digits before and after the season,
    the current season is an identifier of eight characters made of the
    starting year and the next one, and [format_season] splits it between
    the two. *)
Theorem current_season_well_formed :
  1001 <= now_year up <= 9998 ->
  _get_current_season up
  = str_int (season_start up) ++ str_int (season_start up + 1)
  /\ String.length (_get_current_season up) = 8%nat
  /\ format_season (_get_current_season up)
     = str_int (season_start up) ++ "-" ++ str_int (season_start up + 1).
Proof.
  intros Hyear.
  assert (E : _get_current_season up
              = str_int (season_start up) ++ str_int (season_start up + 1)).
  { unfold _get_current_season, season_start.
    destruct (10 <=? now_month up); [reflexivity|].
    now replace (now_year up - 1 + 1) with (now_year up) by lia. }
  assert (Hs : 1000 <= season_start up <= 9998)
    by (unfold season_start; destruct (10 <=? now_month up); lia).
  assert (Ha := str_int_four_digits (season_start up) ltac:(lia)).
  assert (Hb := str_int_four_digits (season_start up + 1) ltac:(lia)).
  rewrite E. split; [reflexivity|]. split.
  - rewrite string_length_app, Ha, Hb. reflexivity.
  - now apply format_season_halves.
Qed.

Lemma str_or_default (season : option string) (current : string) :
  falsy season = true -> str_or season current = str_or (Some current) current.
Proof.
  destruct season as [s|]; cbn; intros H.
  - rewrite H. now destruct (String.eqb current "").
  - now destruct (String.eqb current "").
Qed.

(** A season that is absent or the empty string stands for the current
    season in the calls that take a season identifier. *)
Theorem season_defaults_to_current (team : string) (season : option string) :
  falsy season = true ->
  let current := Some (_get_current_season up) in
  get_team_schedule up team season = get_team_schedule up team current
  /\ get_team_stats up team season = get_team_stats up team current
  /\ get_team_roster up team season = get_team_roster up team current
  /\ get_playoff_series up season = get_playoff_series up current.
Proof.
  intros H. cbn zeta.
  unfold get_team_schedule, get_team_stats, get_team_roster,
    get_playoff_series.
  now rewrite !(str_or_default season _ H).
Qed.

Lemma prefix_app (a b : string) : prefix a (a ++ b) = true.
Proof.
  induction a as [|c a IH]; simpl; [now destruct b|].
  destruct (ascii_dec c c); [exact IH | contradiction].
Qed.

Ltac one_fetch :=
  eexists; split; [apply prefix_app | try reflexivity].

(** Every method of the client makes one fetch, of a URL below
    [NHL_API_BASE]; it passes a failure on unchanged, and returns the
    document, or the list under the key it reads, empty when the key is
    absent. *)
Theorem client_fetches_once (date season : option string) (team : string)
    (category : string) (game_id player_id limit : Z) :
  fetched up (get_todays_scores up date) (fun d => get (games_of up d) [])
  /\ fetched up (get_top_skaters up category limit season)
       (fun d => get (leaders_of up d category) [])
  /\ fetched up (get_top_goalies up limit season)
       (fun d => get (leaders_of up d "savePctg") [])
  /\ fetched up (get_game_details up game_id) (fun d => d)
  /\ fetched up (get_game_boxscore up game_id) (fun d => d)
  /\ fetched up (get_standings up date) (fun d => d)
  /\ fetched up (get_standings_by_season up team) (fun d => d)
  /\ fetched up (get_team_schedule up team season) (fun d => d)
  /\ fetched up (get_schedule up date) (fun d => d)
  /\ fetched up (get_player_stats up player_id season) (fun d => d)
  /\ fetched up (get_playoff_bracket up season) (fun d => d)
  /\ fetched up (get_playoff_series up season) (fun d => d)
  /\ fetched up (get_team_stats up team season) (fun d => d)
  /\ fetched up (get_team_roster up team season) (fun d => d).
Proof.
  assert (Hid : forall url,
             _fetch_json up url = (data <- _fetch_json up url ;; Ok data)).
  { intros url. now destruct (_fetch_json up url). }
  unfold fetched.
  repeat split.
  - unfold get_todays_scores. one_fetch.
  - unfold get_top_skaters. destruct (falsy season); one_fetch.
  - unfold get_top_goalies. destruct (falsy season); one_fetch.
  - unfold get_game_details. one_fetch. apply Hid.
  - unfold get_game_boxscore. one_fetch. apply Hid.
  - unfold get_standings. one_fetch. apply Hid.
  - unfold get_standings_by_season. one_fetch. apply Hid.
  - unfold get_team_schedule. one_fetch. apply Hid.
  - unfold get_schedule. one_fetch. apply Hid.
  - unfold get_player_stats. one_fetch. apply Hid.
  - unfold get_playoff_bracket. one_fetch. apply Hid.
  - unfold get_playoff_series. one_fetch. apply Hid.
  - unfold get_team_stats. one_fetch. apply Hid.
  - unfold get_team_roster. one_fetch. apply Hid.
Qed.

(** ** The dispatcher *)

(** A name that is not in the catalogue is answered with
    "Unknown tool: {name}", whatever the arguments and the state of the
    service. *)
Theorem unknown_tool (name : string) (arguments : Arguments) :
  ~ In name (map tool_name TOOLS) ->
  call_tool up name arguments = text_content ("Unknown tool: " ++ name).
Proof.
  intros Hnew. unfold call_tool, call_tool_body.
  repeat match goal with
         | |- context [String.eqb name ?s] =>
             destruct (String.eqb_spec name s) as [->|_];
             [exfalso; apply Hnew; cbn; tauto|]
         end.
  reflexivity.
Qed.

(** A call that lacks a key its tool declares as required is answered
    with "Error executing {name}: '{key}'", for the first such key, and
    the service is not asked. *)
Theorem missing_required_key (tool : Tool) (arguments : Arguments)
    (key : string) :
  In tool TOOLS ->
  first_missing tool arguments = Some key ->
  call_tool up (tool_name tool) arguments
  = text_content
      ("Error executing " ++ tool_name tool ++ ": '" ++ key ++ "'").
Proof.
  intros Hin Hmiss. unfold first_missing in Hmiss.
  cbn in Hin.
  repeat (destruct Hin as [<- | Hin]); try contradiction;
    cbn in Hmiss; try discriminate;
    unfold call_tool, call_tool_body; cbn [tool_name String.eqb Ascii.eqb
      Bool.eqb];
    repeat match type of Hmiss with
           | context [is_some ?f] => destruct f; cbn in Hmiss
           end;
    try discriminate; injection Hmiss as <-; reflexivity.
Qed.

(** ** The tables *)

Lemma fold_rows {A : Type} (row : A -> string) (xs : list A) :
  forall acc,
    fold_left (fun result x => result ++ row x) xs acc = acc ++ rows row xs.
Proof.
  induction xs as [|x rest IH]; intros acc; cbn.
  - clear. induction acc as [|c acc IH]; cbn; [reflexivity | now rewrite <- IH].
  - rewrite IH. apply string_app_assoc.
Qed.

Lemma enumerate_ranked {A : Type} (row : Z -> A -> string) (xs : list A) :
  forall first acc,
    enumerate_rows row first xs acc = acc ++ ranked_rows row first xs.
Proof.
  induction xs as [|x rest IH]; intros first acc; cbn.
  - clear. induction acc as [|c acc IH]; cbn; [reflexivity | now rewrite <- IH].
  - rewrite IH. apply string_app_assoc.
Qed.

Lemma rows_app {A : Type} (row : A -> string) (xs ys : list A) :
  rows row (xs ++ ys) = rows row xs ++ rows row ys.
Proof.
  induction xs as [|x rest IH]; cbn; [reflexivity|].
  unfold rows in IH. rewrite IH. symmetry. apply string_app_assoc.
Qed.

(** The standings table is its two heading lines followed by one row per
    team, in the order of the list; the table of two lists put end to end
    is the table of the first followed by the rows of the second. *)
Theorem standings_table_rows (teams more : list TeamStandings) :
  format_standings teams
  = format_standings [] ++ rows standings_row teams
  /\ format_standings (teams ++ more)
     = format_standings teams ++ rows standings_row more.
Proof.
  assert (H : forall l,
             format_standings l
             = format_standings [] ++ rows standings_row l).
  { intros l. unfold format_standings. cbn [fold_left]. apply fold_rows. }
  split; [apply H|].
  rewrite (H (teams ++ more)%list), (H teams), rows_app.
  symmetry. apply string_app_assoc.
Qed.

(** The leader boards are their two heading lines followed by one row per
    entry, in the order of the list, the entry at position [i] (from 0)
    being ranked [i + 1]. *)
Theorem leader_table_rows (players : list (PlayerStats stat))
    (category : string) :
  format_player_stats up players category
  = format_player_stats up [] category
      ++ ranked_rows (player_row up) 0 players
  /\ format_goalie_stats up players category
     = format_goalie_stats up [] category
         ++ ranked_rows (goalie_row up category) 0 players.
Proof.
  unfold format_player_stats, format_goalie_stats.
  cbn [enumerate_rows]. split; apply enumerate_ranked.
Qed.

Lemma filter_filter {A : Type} (p q : A -> bool) (l : list A) :
  filter q (filter p l) = filter (fun x => p x && q x) l.
Proof.
  induction l as [|x l IH]; cbn; [reflexivity|].
  destruct (p x); cbn; [destruct (q x); now rewrite IH | exact IH].
Qed.

(** [get_standings] prints the table of the teams that pass both filters,
    in the order of the standings: a filter whose key is absent lets every
    team pass, and an answer without standings gives the empty table. *)
Theorem standings_tool_filters (arguments : Arguments) (data : json) :
  get_standings up (arg_date arguments) = Ok data ->
  call_tool up "get_standings" arguments
  = text_content
      (format_standings
         (filter (passes_filters up arguments)
            (get (standings_of up data) []))).
Proof.
  intros Hfetch. unfold call_tool, call_tool_body.
  change (String.eqb "get_standings" "get_live_games") with false.
  change (String.eqb "get_standings" "get_game_details") with false.
  change (String.eqb "get_standings" "get_standings") with true.
  cbv iota. rewrite Hfetch. cbn [bind try_except].
  do 2 f_equal. unfold passes_filters.
  destruct (arg_division arguments) as [d|],
    (arg_conference arguments) as [c|].
  - apply filter_filter.
  - apply filter_ext. intros t. now rewrite andb_true_r.
  - reflexivity.
  - clear. induction (get (standings_of up data) []) as [|t l IH];
      cbn; [reflexivity | f_equal; exact IH].
Qed.

(** When the answer of the service lacks the list of the category asked
    for, the skater and goalie tools print a table with its two heading
    lines and no row. *)
Theorem leaders_missing_key (arguments : Arguments) (data : json) :
  (forall url, _fetch_json up url = Ok data) ->
  (leaders_of up data (get (arg_category arguments) "points") = None ->
   call_tool up "get_player_stats" arguments
   = text_content
       (format_player_stats up [] (get (arg_category arguments) "points")))
  /\ (leaders_of up data "savePctg" = None ->
      call_tool up "get_goalie_stats" arguments
      = text_content (format_goalie_stats up [] "savePctg")).
Proof.
  intros Hfetch. split; intros Hkey; unfold call_tool, call_tool_body.
  - change (String.eqb "get_player_stats" "get_live_games") with false.
    change (String.eqb "get_player_stats" "get_game_details") with false.
    change (String.eqb "get_player_stats" "get_standings") with false.
    change (String.eqb "get_player_stats" "get_team_stats") with false.
    change (String.eqb "get_player_stats" "get_player_stats") with true.
    cbv iota. unfold get_top_skaters.
    destruct (falsy (arg_season arguments));
      rewrite Hfetch; cbn [bind]; rewrite Hkey; reflexivity.
  - change (String.eqb "get_goalie_stats" "get_live_games") with false.
    change (String.eqb "get_goalie_stats" "get_game_details") with false.
    change (String.eqb "get_goalie_stats" "get_standings") with false.
    change (String.eqb "get_goalie_stats" "get_team_stats") with false.
    change (String.eqb "get_goalie_stats" "get_player_stats") with false.
    change (String.eqb "get_goalie_stats" "get_goalie_stats") with true.
    cbv iota. unfold get_top_goalies.
    destruct (falsy (arg_season arguments));
      rewrite Hfetch; cbn [bind]; rewrite Hkey; reflexivity.
Qed.

(** ** Streak analysis *)

Lemma insert_desc_not_nil (g : Game) (l : list Game) : insert_desc g l <> [].
Proof.
  destruct l as [|h t]; cbn; [discriminate|].
  destruct (String.leb (date_key h) (date_key g)); discriminate.
Qed.

Lemma filter_none {A : Type} (p : A -> bool) (l : list A) :
  Forall (fun x => p x = false) l -> filter p l = [].
Proof.
  induction 1 as [|x l Hx _ IH]; cbn; [reflexivity | now rewrite Hx].
Qed.

(** A schedule without games is answered with "No games found", and one
    whose games are all still to be completed with
    "No completed games found". *)
Theorem streak_without_games (team : string) (schedule : json) :
  get_team_schedule up team None = Ok schedule ->
  (get (games_of up schedule) [] = [] ->
   analyze_streak up team = "No games found for " ++ team)
  /\ (get (games_of up schedule) [] <> [] ->
      Forall (fun g => is_completed (gameState g) = false)
        (get (games_of up schedule) []) ->
      analyze_streak up team
      = "No completed games found for " ++ team ++ " this season").
Proof.
  intros Hfetch. unfold analyze_streak. rewrite Hfetch. cbn [bind].
  split.
  - intros ->. reflexivity.
  - intros Hsome Hnone.
    destruct (get (games_of up schedule) []) as [|g games]; [contradiction|].
    unfold completed_games.
    rewrite (filter_none (fun g => is_completed (gameState g)) _ Hnone).
    reflexivity.
Qed.

Lemma filter_all {A : Type} (p : A -> bool) (l : list A) :
  Forall (fun x => p x = true) l -> filter p l = l.
Proof.
  induction 1 as [|x l Hx _ IH]; cbn; [reflexivity | now rewrite Hx, IH].
Qed.

Lemma filter_Forall {A : Type} (p : A -> bool) (l : list A) :
  Forall (fun x => p x = true) (filter p l).
Proof.
  induction l as [|x l IH]; cbn; [constructor|].
  destruct (p x) eqn:E; [constructor; assumption | exact IH].
Qed.

Lemma completed_games_all_completed (games : list Game) :
  Forall (fun g => is_completed (gameState g) = true) (completed_games games).
Proof.
  unfold completed_games.
  eapply Permutation_Forall; [symmetry; apply sort_desc_perm|].
  apply filter_Forall.
Qed.

(** The completed games are exactly the games of the schedule whose state
    is OFF or FINAL, most recent date first, games of one date in the
    order of the schedule. *)
Theorem completed_games_order (games : list Game) :
  let completed := filter (fun g => is_completed (gameState g)) games in
  Permutation (completed_games games) completed
  /\ Sorted date_ge (completed_games games)
  /\ (forall d,
         filter (fun g => String.eqb (date_key g) d) (completed_games games)
         = filter (fun g => String.eqb (date_key g) d) completed)
  /\ Forall (fun g => is_completed (gameState g) = true)
       (completed_games games).
Proof.
  cbn zeta. unfold completed_games. repeat split.
  - apply sort_desc_perm.
  - apply sort_desc_sorted.
  - intros d. apply sort_desc_stable.
  - apply (completed_games_all_completed games).
Qed.

Lemma sort_desc_sorted_id (l : list Game) :
  Sorted date_ge l -> sort_desc l = l.
Proof.
  induction 1 as [|g l Hl IH Hg]; [reflexivity|].
  change (sort_desc (g :: l)) with (insert_desc g (sort_desc l)).
  rewrite IH. destruct Hg as [|h t Hgh]; [reflexivity|].
  cbn [insert_desc]. unfold date_ge in Hgh. now rewrite Hgh.
Qed.

(** Completed games that already come most recent first are left as they
    are, and selecting the completed games of a selection changes
    nothing. *)
Theorem completed_games_stable (games : list Game) :
  (Sorted date_ge (filter (fun g => is_completed (gameState g)) games) ->
   completed_games games
   = filter (fun g => is_completed (gameState g)) games)
  /\ completed_games (completed_games games) = completed_games games.
Proof.
  split.
  - intros Hsorted. unfold completed_games. now apply sort_desc_sorted_id.
  - pose proof (completed_games_all_completed games) as Hall.
    unfold completed_games at 1.
    rewrite (filter_all _ _ Hall). apply sort_desc_sorted_id.
    unfold completed_games. apply sort_desc_sorted.
Qed.

Lemma run_length_le (b : bool) (ws : list bool) :
  (run_length b ws <= List.length ws)%nat.
Proof.
  induction ws as [|w ws IH]; cbn; [lia|].
  destruct (Bool.eqb w b); lia.
Qed.

Lemma firstn_min_length {A : Type} (l : list A) :
  forall n, firstn (Nat.min n (List.length l)) l = firstn n l.
Proof.
  induction l as [|x l IH]; intros [|n]; cbn; try reflexivity.
  now rewrite IH.
Qed.

(** On a non-empty list of completed games the streak counts between 1
    and 10 games and never more than there are; the lines of the report
    are those of the first games of the list, as many as the streak or one
    more, and never more than ten. *)
Theorem streak_bounds (team : string) (g : Game) (rest : list Game) :
  let completed := g :: rest in
  let st := streak_loop team completed (mkStreak 0 "" []) in
  let n := List.length (recent_results st) in
  1 <= streak_count st <= 10
  /\ streak_count st <= Z.of_nat (List.length completed)
  /\ recent_results st = map (result_line team) (firstn n completed)
  /\ streak_count st <= Z.of_nat n <= streak_count st + 1
  /\ (n <= 10)%nat.
Proof.
  cbn zeta.
  destruct (streak_loop_spec team g rest) as (Hc & _ & Hr).
  cbn zeta in Hc, Hr. rewrite Hc, Hr.
  rewrite length_map, length_firstn, firstn_min_length.
  pose proof (run_length_le (won team g) (map (won team) rest)) as Hle.
  rewrite length_map in Hle.
  unfold streak_length in *.
  set (k := run_length (won team g) (map (won team) rest)) in *.
  change (List.length (g :: rest)) with (S (List.length rest)).
  repeat split; lia.
Qed.

(** ** Head-to-head comparison *)

(** A schedule without games is answered with "No schedule data found",
    and one without a game between the two teams with
    "No matchups found". *)
Theorem series_without_games (team1 team2 : string) (season : option string)
    (schedule : json) :
  get_team_schedule up team1 season = Ok schedule ->
  (get (games_of up schedule) [] = [] ->
   compare_teams_head_to_head up team1 team2 season
   = "No schedule data found for " ++ team1)
  /\ (get (games_of up schedule) [] <> [] ->
      Forall (fun g => is_matchup team1 team2 g = false)
        (get (games_of up schedule) []) ->
      compare_teams_head_to_head up team1 team2 season
      = "No matchups found between " ++ team1 ++ " and " ++ team2
          ++ " this season").
Proof.
  intros Hfetch. unfold compare_teams_head_to_head.
  rewrite Hfetch. cbn [bind]. split.
  - intros ->. reflexivity.
  - intros Hsome Hnone.
    destruct (get (games_of up schedule) []) as [|g games]; [contradiction|].
    rewrite (filter_none _ _ Hnone). reflexivity.
Qed.

Lemma is_matchup_sym (team1 team2 : string) (g : Game) :
  is_matchup team2 team1 g = is_matchup team1 team2 g.
Proof. unfold is_matchup. apply orb_comm. Qed.

Lemma matchup_scores_swap (team1 team2 : string) (g : Game) :
  team1 <> team2 ->
  is_matchup team1 team2 g = true ->
  team1_score team2 g = team2_score team1 g
  /\ team2_score team2 g = team1_score team1 g.
Proof.
  intros Hne Hm. unfold is_matchup in Hm.
  unfold team1_score, team2_score.
  destruct (opt_eqb (side_abbrev (homeTeam g)) team1) eqn:E1,
    (opt_eqb (side_abbrev (homeTeam g)) team2) eqn:E2;
    cbn in Hm; try discriminate; try (split; reflexivity).
  apply opt_eqb_eq in E1, E2. congruence.
Qed.

(** The comparison does not depend on which team is named first, ties
    apart: both orders select the same games, and when no completed game
    ended with equal scores the wins of each team are the same in both
    orders. *)
Theorem series_swap (team1 team2 : string) (games : list Game) :
  team1 <> team2 ->
  no_tie team1 (filter (is_matchup team1 team2) games) ->
  let matchups := filter (is_matchup team1 team2) games in
  filter (is_matchup team2 team1) games = matchups
  /\ team1_wins (series_loop team2 team1 matchups)
     = team2_wins (series_loop team1 team2 matchups)
  /\ team2_wins (series_loop team2 team1 matchups)
     = team1_wins (series_loop team1 team2 matchups).
Proof.
  intros Hne Htie. cbn zeta. split.
  - apply filter_ext. intros g. apply is_matchup_sym.
  - unfold series_loop. rewrite !series_fold_spec.
    cbn [team1_wins team2_wins]. unfold count.
    assert (Hall : Forall (fun g => is_matchup team1 team2 g = true)
                     (filter (is_matchup team1 team2) games))
      by apply filter_Forall.
    unfold no_tie in Htie.
    induction (filter (is_matchup team1 team2) games) as [|g l IH];
      [split; reflexivity|].
    inversion Hall as [|? ? Hg Hl]; subst.
    inversion Htie as [|? ? Hgt Hlt]; subst.
    destruct (IH Hlt Hl) as [IH1 IH2]. clear IH.
    destruct (matchup_scores_swap team1 team2 g Hne Hg) as [S1 S2].
    cbn [filter]. unfold team1_won, team2_won in *. rewrite S1, S2.
    destruct (is_completed (gameState g)) eqn:Hdone; cbn [andb].
    + specialize (Hgt eq_refl).
      destruct (Z.ltb_spec (team2_score team1 g) (team1_score team1 g)),
        (Z.ltb_spec (team1_score team1 g) (team2_score team1 g));
        cbn [negb List.length]; try lia.
    + lia.
Qed.

(** ** Season comparison *)

Lemma seasons_loop_first_failure
    (block : string -> list TeamStandings -> result string)
    (before after : list string) (season : string) (e : exn) :
  Forall (fun s =>
            exists teams b,
              season_teams up s = Ok teams /\ block s teams = Ok b)
    before ->
  get_standings_by_season up season = Raise e ->
  forall acc,
    seasons_loop up block (before ++ season :: after) acc = Raise e.
Proof.
  intros Hbefore Hfail.
  induction Hbefore as [|s rest (teams & b & Hfetch & Hblock) _ IH];
    intros acc.
  - rewrite app_nil_l. cbn [seasons_loop]. now rewrite Hfail.
  - rewrite <- app_comm_cons. cbn [seasons_loop].
    unfold season_teams in Hfetch.
    destruct (get_standings_by_season up s) as [d|e0];
      cbn [bind] in *; [|discriminate].
    injection Hfetch as ->. rewrite Hblock. cbn [bind]. apply IH.
Qed.

(** A season whose standings cannot be fetched ends the comparison: the
    answer is the text of that failure alone, the blocks of the seasons
    before it are dropped and the seasons after it are not asked for. *)
Theorem season_failure_aborts (before after : list string) (season : string)
    (team : option string) (e : exn) :
  get_standings_by_season up season = Raise e ->
  (falsy team = false ->
   Forall (fun s => exists teams, season_teams up s = Ok teams) before ->
   compare_seasons up (before ++ season :: after) team
   = "Error comparing seasons: " ++ str_exn e)
  /\ (falsy team = true ->
      Forall (fun s =>
                exists teams,
                  season_teams up s = Ok teams
                  /\ 0 <= total goalFor teams < 2 ^ 45)
        before ->
      compare_seasons up (before ++ season :: after) team
      = "Error comparing seasons: " ++ str_exn e).
Proof.
  intros Hfail. unfold compare_seasons. split; intros Hmode Hbefore;
    rewrite Hmode.
  - rewrite (seasons_loop_first_failure _ before after season e);
      [reflexivity | | exact Hfail].
    eapply Forall_impl; [|exact Hbefore].
    intros s (teams & Hfetch). eauto.
  - rewrite (seasons_loop_first_failure _ before after season e);
      [reflexivity | | exact Hfail].
    eapply Forall_impl; [|exact Hbefore].
    intros s (teams & Hfetch & Hgoals).
    destruct (league_block_spec s teams Hgoals) as (h & Hblock & _).
    eauto.
Qed.

End Further.

(** * The program on the sample data *)

(** C1.  The recent results are cut where the streak ends.  AAA's three
    completed games are, most recent first, a win, a loss and a win: the
    streak is one win, and the block under "Last 10 games:" holds the
    first two games only, the loop having left at the loss, although three
    completed games (fewer than ten) are known. *)
Theorem recent_results_stop_at_streak_end :
  let completed := completed_games wlw_games in
  List.length completed = 3%nat
  /\ analyze_streak wlw_upstream "AAA"
     = "AAA Current Streak: 1 game winning streak" ++ nl ++ nl
         ++ "Last 10 games:" ++ nl
         ++ join nl ["W 3-1 vs BBB"; "L 1-2 vs CCC"]
  /\ recent_results (streak_loop "AAA" completed (mkStreak 0 "" []))
     = map (result_line "AAA") (firstn 2 completed)
  /\ recent_results (streak_loop "AAA" completed (mkStreak 0 "" []))
     <> map (result_line "AAA")
          (firstn (Nat.min 10 (List.length completed)) completed).
Proof.
  cbn zeta. repeat split; try (vm_compute; reflexivity).
  vm_compute. discriminate.
Qed.

(** The float model on quotients whose Python output is well known:
    [1 / 3] is [0x15555555555555 * 2^-54], and [:.2f] rounds the binary
    value, not the decimal one. *)
Example true_div_third :
  true_div 1 3 = Ok (mkFloat false 6004799503160661 (-54)).
Proof. reflexivity. Qed.

Example avg_goals_samples :
  map (fun '(a, b) => avg_goals_2f a b)
    [(300, 100); (450, 150); (2, 3); (1, 8); (1, 200); (1005, 1000);
     (2675, 1000); (7, 0); (0, 82)]
  = map Ok
      ["3.00"; "3.00"; "0.67"; "0.12"; "0.01"; "1.00"; "2.67"; "0.00";
       "0.00"].
Proof. vm_compute. reflexivity. Qed.

(** A most recent game with equal scores opens a losing streak. *)
Example tie_is_loss :
  won "AAA" tied_game = false
  /\ streak_text (streak_loop "AAA" [tied_game] (mkStreak 0 "" []))
     = "1 game losing streak".
Proof. split; reflexivity. Qed.

(** Twelve wins in a row are reported as a streak of ten, with ten
    lines. *)
Example streak_capped_at_ten :
  let st := streak_loop "AAA" (completed_games twelve_wins)
              (mkStreak 0 "" []) in
  streak_text st = "10 game winning streak"
  /\ List.length (recent_results st) = 10%nat.
Proof. vm_compute. split; reflexivity. Qed.

Lemma format_season_witness :
  (String.length "20242025" = 8%nat
   /\ exists a b : string,
       "20242025" = a ++ b /\ String.length a = 4%nat
       /\ String.length b = 4%nat
       /\ format_season "20242025" = a ++ "-" ++ b)
  /\ (String.length "2024" <> 8%nat /\ format_season "2024" = "2024").
Proof.
  split; split.
  - reflexivity.
  - apply (proj1 (format_season_spec "20242025")). reflexivity.
  - discriminate.
  - apply (proj2 (format_season_spec "2024")). discriminate.
Defined.

Lemma current_season_witness :
  10 <= now_month down_upstream
  /\ _get_current_season down_upstream = "20242025".
Proof.
  split.
  - vm_compute. discriminate.
  - apply (proj1 (current_season_spec Doc Z down_upstream)).
    vm_compute. discriminate.
Defined.

Lemma empty_inputs_witness :
  get_todays_scores idle_upstream (arg_date no_arguments) = Ok []
  /\ call_tool idle_upstream "get_live_games" no_arguments
     = text_content "No games scheduled for this date".
Proof.
  split.
  - reflexivity.
  - apply (empty_inputs Doc Z idle_upstream "points" no_arguments).
    reflexivity.
Defined.

Lemma errors_become_text_witness :
  get_team_schedule down_upstream "AAA" None
  = Raise (Exception "connection refused")
  /\ analyze_streak down_upstream "AAA"
     = "Error analyzing streak: connection refused".
Proof.
  split.
  - reflexivity.
  - apply (proj1 (errors_become_text Doc Z down_upstream)
             "AAA" (Exception "connection refused")).
    reflexivity.
Defined.

Lemma streak_header_witness :
  get_team_schedule wwl_upstream "AAA" None
  = Ok (mkDoc (Some wwl_games) None)
  /\ completed_games wwl_games
     = [ final_game "2024-11-04" "AAA" 3 "BBB" 1;
         final_game "2024-11-03" "CCC" 2 "AAA" 5;
         final_game "2024-11-01" "AAA" 1 "DDD" 4 ]
  /\ exists lines,
      analyze_streak wwl_upstream "AAA"
      = "AAA Current Streak: 2 game winning streak" ++ nl ++ nl
          ++ "Last 10 games:" ++ nl ++ join nl lines.
Proof.
  split; [reflexivity|]. split; [reflexivity|].
  apply (streak_header Doc Z wwl_upstream "AAA"
           (mkDoc (Some wwl_games) None)
           (final_game "2024-11-04" "AAA" 3 "BBB" 1)
           [ final_game "2024-11-03" "CCC" 2 "AAA" 5;
             final_game "2024-11-01" "AAA" 1 "DDD" 4 ]);
    reflexivity.
Defined.

Lemma series_report_witness :
  get_team_schedule series_upstream "AAA" None
  = Ok (mkDoc (Some series_games) None)
  /\ filter (is_matchup "AAA" "BBB") series_games
     = [ final_game "2024-10-12" "AAA" 3 "BBB" 2;
         final_game "2024-10-20" "BBB" 4 "AAA" 1 ]
  /\ compare_teams_head_to_head series_upstream "AAA" "BBB" None
     = "Head-to-Head: AAA vs BBB" ++ nl ++ nl
         ++ "Season Series: AAA 1-1 BBB" ++ nl ++ nl
         ++ "Games:" ++ nl
         ++ join nl [ "2024-10-12: AAA 3, BBB 2 - AAA WIN";
                      "2024-10-20: AAA 1, BBB 4 - BBB WIN" ].
Proof.
  split; [reflexivity|]. split; [reflexivity|].
  apply (series_report_spec Doc Z series_upstream "AAA" "BBB" None
           (mkDoc (Some series_games) None)
           (final_game "2024-10-12" "AAA" 3 "BBB" 2)
           [ final_game "2024-10-20" "BBB" 4 "AAA" 1 ]);
    reflexivity.
Defined.

Lemma series_wins_witness :
  is_completed (gameState tied_game) = true
  /\ team1_score "AAA" tied_game = team2_score "AAA" tied_game
  /\ series_step "AAA" "BBB" (mkSeries 0 0 []) tied_game
     = mkSeries 0 1 ["2024-10-12: AAA 2, BBB 2 - BBB WIN"].
Proof.
  split; [reflexivity|]. split; [reflexivity|].
  apply (proj2 (proj2 (series_wins_total "AAA" "BBB" [tied_game]))
           (mkSeries 0 0 []) tied_game);
    reflexivity.
Defined.

Lemma league_mode_witness :
  falsy None = true
  /\ compare_seasons standings_upstream ["20232024"; "20242025"] None
     = "Season Comparison:" ++ nl ++ nl
         ++ join (nl ++ nl)
              [ league_record "20232024" 2 300 300;
                league_record "20242025" 3 450 300 ]
  /\ exists blocks,
      compare_seasons standings_upstream ["20232024"; "20242025"] None
      = "Season Comparison:" ++ nl ++ nl ++ join (nl ++ nl) blocks
      /\ List.length blocks = 2%nat.
Proof.
  split; [reflexivity|]. split; [vm_compute; reflexivity|].
  destruct (league_mode_blocks Doc Z standings_upstream
              ["20232024"; "20242025"] None eq_refl)
    as (blocks & Hreport & Hblocks).
  - repeat (constructor;
              [eexists; split;
               [reflexivity | vm_compute; split; [discriminate | reflexivity]]
              |]).
    constructor.
  - exists blocks. split; [exact Hreport|].
    apply Forall2_length in Hblocks. symmetry. exact Hblocks.
Defined.

Lemma team_mode_witness :
  "CCC" <> ""
  /\ compare_seasons standings_upstream ["20232024"; "20242025"] (Some "CCC")
     = "Season Comparison for CCC:" ++ nl ++ nl
         ++ join (nl ++ nl)
              [ "2023-2024 - CCC: No data found";
                team_record "CCC" "20242025"
                  (standing "CCC" 50 25 20 5 55 160 155) ]
  /\ exists blocks,
      compare_seasons standings_upstream ["20232024"; "20242025"]
        (Some "CCC")
      = "Season Comparison for CCC:" ++ nl ++ nl ++ join (nl ++ nl) blocks
      /\ List.length blocks = 2%nat.
Proof.
  split; [discriminate|]. split; [vm_compute; reflexivity|].
  destruct (team_mode_blocks Doc Z standings_upstream
              ["20232024"; "20242025"] "CCC")
    as (blocks & Hreport & Hblocks).
  - discriminate.
  - repeat constructor; eexists; reflexivity.
  - exists blocks. split; [exact Hreport|].
    apply Forall2_length in Hblocks. symmetry. exact Hblocks.
Defined.

Lemma avg_goals_exact_witness :
  0 <= 450 < 2 ^ 45 /\ 0 < 150 /\ 100 * 450 = 300 * 150
  /\ avg_goals_2f 450 150 = Ok "3.00".
Proof.
  assert (H1 : 0 <= 450 < 2 ^ 45)
    by (vm_compute; split; [discriminate | reflexivity]).
  assert (H2 : 0 < 150) by reflexivity.
  assert (H3 : 100 * 450 = 300 * 150) by reflexivity.
  split; [exact H1|]. split; [exact H2|]. split; [exact H3|].
  exact (avg_goals_exact 450 150 300 H1 H2 H3).
Defined.

Lemma current_season_well_formed_witness :
  1001 <= now_year down_upstream <= 9998
  /\ String.length (_get_current_season down_upstream) = 8%nat
  /\ format_season (_get_current_season down_upstream) = "2024-2025".
Proof.
  assert (H : 1001 <= now_year down_upstream <= 9998)
    by (vm_compute; split; discriminate).
  split; [exact H|].
  exact (proj2 (current_season_well_formed Doc Z down_upstream H)).
Defined.

Lemma season_defaults_witness :
  falsy (Some "") = true
  /\ get_team_schedule series_upstream "AAA" (Some "")
     = get_team_schedule series_upstream "AAA" (Some "20242025").
Proof.
  split; [reflexivity|].
  exact (proj1 (season_defaults_to_current Doc Z series_upstream "AAA"
                  (Some "") eq_refl)).
Defined.

Lemma unknown_tool_witness :
  ~ In "get_weather" (map tool_name TOOLS)
  /\ call_tool down_upstream "get_weather" no_arguments
     = text_content "Unknown tool: get_weather".
Proof.
  assert (H : ~ In "get_weather" (map tool_name TOOLS)).
  { cbn. intros Hin.
    repeat (destruct Hin as [Hin | Hin]; [discriminate Hin|]).
    exact Hin. }
  split; [exact H|].
  exact (unknown_tool Doc Z down_upstream "get_weather" no_arguments H).
Defined.

Lemma missing_required_key_witness :
  In (mkTool "compare_teams" ["team1"; "team2"; "season"] ["team1"; "team2"])
    TOOLS
  /\ first_missing
       (mkTool "compare_teams" ["team1"; "team2"; "season"]
          ["team1"; "team2"])
       team1_only
     = Some "team2"
  /\ call_tool down_upstream "compare_teams" team1_only
     = text_content "Error executing compare_teams: 'team2'".
Proof.
  assert (Hin : In (mkTool "compare_teams" ["team1"; "team2"; "season"]
                      ["team1"; "team2"]) TOOLS)
    by (cbn; tauto).
  split; [exact Hin|]. split; [reflexivity|].
  exact (missing_required_key Doc Z down_upstream _ team1_only "team2"
           Hin eq_refl).
Defined.

Lemma standings_tool_filters_witness :
  get_standings standings_upstream (arg_date division_of_season)
  = serve_standings (NHL_API_BASE ++ "/standings/20242025")
  /\ call_tool standings_upstream "get_standings" division_of_season
     = text_content
         (format_standings
            [ standing "AAA" 50 28 18 4 60 150 140;
              standing "BBB" 50 22 22 6 50 140 150;
              standing "CCC" 50 25 20 5 55 160 155 ]).
Proof.
  split; [reflexivity|].
  exact (standings_tool_filters Doc Z standings_upstream division_of_season
           _ eq_refl).
Defined.

Lemma leaders_missing_key_witness :
  (forall url, _fetch_json bare_upstream url = Ok (mkDoc None None))
  /\ call_tool bare_upstream "get_player_stats" no_arguments
     = text_content (format_player_stats bare_upstream [] "points").
Proof.
  assert (H : forall url, _fetch_json bare_upstream url = Ok (mkDoc None None))
    by reflexivity.
  split; [exact H|].
  exact (proj1 (leaders_missing_key Doc Z bare_upstream no_arguments
                  (mkDoc None None) H) eq_refl).
Defined.

Lemma streak_without_games_witness :
  get_team_schedule upcoming_upstream "AAA" None
  = Ok (mkDoc (Some [future_game]) None)
  /\ analyze_streak upcoming_upstream "AAA"
     = "No completed games found for AAA this season".
Proof.
  split; [reflexivity|].
  apply (proj2 (streak_without_games Doc Z upcoming_upstream "AAA"
                  (mkDoc (Some [future_game]) None) eq_refl)).
  - discriminate.
  - repeat constructor.
Defined.

Lemma completed_games_stable_witness :
  Sorted date_ge (filter (fun g => is_completed (gameState g)) wlw_games)
  /\ completed_games wlw_games = wlw_games.
Proof.
  assert (H : Sorted date_ge
                (filter (fun g => is_completed (gameState g)) wlw_games))
    by (repeat constructor).
  split; [exact H|].
  exact (proj1 (completed_games_stable wlw_games) H).
Defined.

Lemma series_without_games_witness :
  get_team_schedule series_upstream "AAA" None
  = Ok (mkDoc (Some series_games) None)
  /\ compare_teams_head_to_head series_upstream "AAA" "DDD" None
     = "No matchups found between AAA and DDD this season".
Proof.
  split; [reflexivity|].
  apply (proj2 (series_without_games Doc Z series_upstream "AAA" "DDD" None
                  (mkDoc (Some series_games) None) eq_refl)).
  - discriminate.
  - repeat constructor.
Defined.

Lemma series_swap_witness :
  "AAA" <> "BBB"
  /\ no_tie "AAA" (filter (is_matchup "AAA" "BBB") series_games)
  /\ team1_wins
       (series_loop "BBB" "AAA" (filter (is_matchup "AAA" "BBB") series_games))
     = 1.
Proof.
  assert (Hne : "AAA" <> "BBB") by discriminate.
  assert (Htie : no_tie "AAA" (filter (is_matchup "AAA" "BBB") series_games)).
  { repeat constructor; intros _; discriminate. }
  split; [exact Hne|]. split; [exact Htie|].
  exact (proj1 (proj2 (series_swap "AAA" "BBB" series_games Hne Htie))).
Defined.

Lemma season_failure_aborts_witness :
  get_standings_by_season standings_upstream "2025"
  = Raise (Exception "404 Not Found")
  /\ compare_seasons standings_upstream
       (["20232024"] ++ "2025" :: ["20242025"]) (Some "CCC")
     = "Error comparing seasons: 404 Not Found".
Proof.
  split; [reflexivity|].
  apply (proj1 (season_failure_aborts Doc Z standings_upstream
                  ["20232024"] ["20242025"] "2025" (Some "CCC")
                  (Exception "404 Not Found") eq_refl)).
  - reflexivity.
  - repeat constructor. eexists. reflexivity.
Defined.
